(** * Dynamic line-item extraction (section [inovicestruct] of MAIN.PY)

    A shallow embedding of [DynamicLineItemProcessor]: the table-region
    detector, the word filter, the row grouper, the row classifier and the
    pipeline that sequences them, together with the fragment of Python's
    [str] and [re] that these functions call.

    Conventions.
    - Python [int] is [Z]; list indices produced by [enumerate] are [nat].
    - Python [str] is [string]; characters are taken to be ASCII, so
      [lower], [strip], [\d], [\s], [\w] are the ASCII restrictions of the
      Python operations.
    - A Python exception is a value [Raise e] of the result type [res];
      nothing in the modelled functions catches one.
    - The two floats of the program ([k / 5.0] for k in 0..5, and [0.8])
      are the rationals they denote. *)

From Stdlib Require Import ZArith QArith Qminmax List String Ascii Bool Lia.
From Stdlib Require Import Sorting.Sorted Sorting.Permutation.
Import ListNotations.

Local Open Scope string_scope.
Local Open Scope list_scope.
Local Open Scope Z_scope.

(** ** Exceptions *)

Inductive exn : Type :=
| IndexError
| KeyError (key : string)
| ValueError
| ReError (msg : string) (pos : nat)
| ReOutsideFragment.

Inductive res (A : Type) : Type :=
| Ok (a : A)
| Raise (e : exn).

Arguments Ok {A} a.
Arguments Raise {A} e.

Definition bind {A B : Type} (c : res A) (k : A -> res B) : res B :=
  match c with
  | Ok a => k a
  | Raise e => Raise e
  end.

Notation "x <- c ;; k" := (bind c (fun x => k))
  (at level 61, c at next level, right associativity).

(** [l[i]] for a non-negative index. *)
Definition get {A : Type} (l : list A) (i : nat) : res A :=
  match nth_error l i with
  | Some a => Ok a
  | None => Raise IndexError
  end.

(** [max(l)] and [min(l)] over integers; both raise on an empty list. *)
Definition py_max (l : list Z) : res Z :=
  match l with
  | [] => Raise ValueError
  | a :: l' => Ok (fold_left Z.max l' a)
  end.

Definition py_min (l : list Z) : res Z :=
  match l with
  | [] => Raise ValueError
  | a :: l' => Ok (fold_left Z.min l' a)
  end.

(** ** The fragment of [str] *)

Module Str.

Definition code (c : ascii) : nat := nat_of_ascii c.

Definition in_range (lo hi : nat) (c : ascii) : bool :=
  (lo <=? code c)%nat && (code c <=? hi)%nat.

Definition is_upper (c : ascii) : bool := in_range 65 90 c.
Definition is_lower (c : ascii) : bool := in_range 97 122 c.
Definition is_digit (c : ascii) : bool := in_range 48 57 c.

(** [str.isspace] on ASCII: tab..carriage return, the four separators
    28..31, and space. *)
Definition is_space (c : ascii) : bool :=
  in_range 9 13 c || in_range 28 32 c.

Definition is_word (c : ascii) : bool :=
  is_upper c || is_lower c || is_digit c || (code c =? 95)%nat.

Definition lower_char (c : ascii) : ascii :=
  if is_upper c then ascii_of_nat (code c + 32) else c.

Definition upper_char (c : ascii) : ascii :=
  if is_lower c then ascii_of_nat (code c - 32) else c.

Definition chars (s : string) : list ascii := list_ascii_of_string s.
Definition of_chars (l : list ascii) : string := string_of_list_ascii l.

(** [s.lower()] *)
Fixpoint lower (s : string) : string :=
  match s with
  | EmptyString => EmptyString
  | String c s' => String (lower_char c) (lower s')
  end.

Fixpoint lstrip (s : string) : string :=
  match s with
  | EmptyString => EmptyString
  | String c s' => if is_space c then lstrip s' else s
  end.

(** Removes trailing white space: a character is kept when it is not
    white space or when something is kept after it. *)
Fixpoint rstrip (s : string) : string :=
  match s with
  | EmptyString => EmptyString
  | String c s' =>
      match rstrip s' with
      | EmptyString => if is_space c then EmptyString else String c EmptyString
      | r => String c r
      end
  end.

(** [s.strip()] *)
Definition strip (s : string) : string := rstrip (lstrip s).

(** Truth value of a string: non-empty. *)
Definition truthy (s : string) : bool :=
  match s with
  | EmptyString => false
  | String _ _ => true
  end.

Fixpoint starts_with (p s : string) : bool :=
  match p, s with
  | EmptyString, _ => true
  | String a p', String b s' => Ascii.eqb a b && starts_with p' s'
  | String _ _, EmptyString => false
  end.

(** [sub in s] *)
Fixpoint contains (sub s : string) : bool :=
  starts_with sub s ||
  match s with
  | EmptyString => false
  | String _ s' => contains sub s'
  end.

(** [sep.join(l)] *)
Fixpoint join (sep : string) (l : list string) : string :=
  match l with
  | [] => EmptyString
  | [a] => a
  | a :: l' => a ++ sep ++ join sep l'
  end.

(** [s.replace(c, '')] for a one-character [c]. *)
Fixpoint remove_char (c : ascii) (s : string) : string :=
  match s with
  | EmptyString => EmptyString
  | String a s' =>
      if Ascii.eqb a c then remove_char c s' else String a (remove_char c s')
  end.

(** [any(keyword.lower() in text.lower() for keyword in keywords)] *)
Definition any_keyword_in (keywords : list string) (text : string) : bool :=
  existsb (fun keyword => contains (lower keyword) (lower text)) keywords.

End Str.

(** ** The fragment of [re]

    Patterns are parsed from their source text, as [re.compile] does, into
    a sequence of items.  The fragment has literals, escapes, character
    classes, [.], the anchors [^ $ \b \B] and greedy repeats; a pattern
    using anything else (groups, alternation, lazy repeats) is answered
    with [ReOutsideFragment], which no pattern of the program reaches.
    Matching is the backtracking search of the [re] engine. *)

Module Re.

Inductive category : Type := Digit | NotDigit | Space | NotSpace | Word | NotWord.

Inductive class_item : Type :=
| CChar (c : ascii)
| CRange (lo hi : ascii)
| CCat (k : category).

(** What consumes exactly one character. *)
Inductive atom : Type :=
| Lit (c : ascii)
| AnyChar
| Class (negated : bool) (items : list class_item).

Inductive anchor : Type := AtBeginning | AtEnd | AtBoundary | AtNonBoundary.

Inductive item : Type :=
| One (a : atom)
| At (k : anchor)
| Repeat (lo : nat) (hi : option nat) (a : atom).

Definition pattern : Type := list item.

(** *** Parsing *)

Definition is_ascii_letter (c : ascii) : bool := Str.is_upper c || Str.is_lower c.

Definition category_of (c : ascii) : option category :=
  if Ascii.eqb c "d" then Some Digit
  else if Ascii.eqb c "D" then Some NotDigit
  else if Ascii.eqb c "s" then Some Space
  else if Ascii.eqb c "S" then Some NotSpace
  else if Ascii.eqb c "w" then Some Word
  else if Ascii.eqb c "W" then Some NotWord
  else None.

(** The item denoted by [\c] outside a character class. *)
Definition escape (c : ascii) : option item :=
  match category_of c with
  | Some k => Some (One (Class false [CCat k]))
  | None =>
      if Ascii.eqb c "b" then Some (At AtBoundary)
      else if Ascii.eqb c "B" then Some (At AtNonBoundary)
      else if is_ascii_letter c || Str.is_digit c then None
      else Some (One (Lit c))
  end.

(** The class member denoted by [\c] inside a character class. *)
Definition class_escape (c : ascii) : option class_item :=
  match category_of c with
  | Some k => Some (CCat k)
  | None =>
      if is_ascii_letter c || Str.is_digit c then None
      else Some (CChar c)
  end.

(** Members of a class up to the closing bracket; returns the members
    and the text after the bracket.  [first] is true just after the
    opening bracket (and its optional [^]), where [ ] ] is a literal. *)
Fixpoint parse_class (fuel : nat) (first : bool) (s : list ascii)
  : option (list class_item * list ascii) :=
  match fuel with
  | O => None
  | S fuel' =>
      let range_or_char (lo : class_item) (rest : list ascii) :=
        match lo, rest with
        | CChar a, "-"%char :: "]"%char :: _ =>
            option_map (fun r => (CChar a :: fst r, snd r)) (parse_class fuel' false rest)
        | CChar a, "-"%char :: "\"%char :: e :: rest' =>
            match class_escape e with
            | Some (CChar b) =>
                if (Str.code a <=? Str.code b)%nat
                then option_map (fun r => (CRange a b :: fst r, snd r))
                       (parse_class fuel' false rest')
                else None
            | _ => None
            end
        | CChar a, "-"%char :: b :: rest' =>
            if (Str.code a <=? Str.code b)%nat
            then option_map (fun r => (CRange a b :: fst r, snd r))
                   (parse_class fuel' false rest')
            else None
        | _, _ =>
            option_map (fun r => (lo :: fst r, snd r)) (parse_class fuel' false rest)
        end in
      match s with
      | [] => None
      | "]"%char :: rest =>
          if first then range_or_char (CChar "]"%char) rest else Some ([], rest)
      | "\"%char :: e :: rest =>
          match class_escape e with
          | Some m => range_or_char m rest
          | None => None
          end
      | "\"%char :: [] => None
      | c :: rest => range_or_char (CChar c) rest
      end
  end.

Fixpoint take_digits (s : list ascii) : list ascii * list ascii :=
  match s with
  | c :: s' =>
      if Str.is_digit c
      then let (d, r) := take_digits s' in (c :: d, r)
      else ([], s)
  | [] => ([], [])
  end.

Definition number (digits : list ascii) : nat :=
  fold_left (fun n c => (10 * n + (Str.code c - 48))%nat) digits 0%nat.

(** What follows an opening brace: [Some (lo, hi, rest)] for a
    well-formed [m}], [m,}], [,n}] or [m,n}], and [None] when the brace
    is a literal. *)
Definition parse_braces (s : list ascii) : option (nat * option nat * list ascii) :=
  match s with
  | "}"%char :: _ => None
  | _ =>
      let (lo, r1) := take_digits s in
      let '(hi, r2) :=
        match r1 with
        | ","%char :: r1' => take_digits r1'
        | _ => (lo, r1)
        end in
      match r2 with
      | "}"%char :: rest =>
          Some (match lo with [] => 0%nat | _ => number lo end,
                match hi with [] => None | _ => Some (number hi) end,
                rest)
      | _ => None
      end
  end.

(** Applies a repeat read at position [pos] to the last item parsed
    ([acc] holds the items in reverse). *)
Definition repeat_last (acc : list item) (lo : nat) (hi : option nat) (pos : nat)
  : res (list item) :=
  match acc with
  | [] => Raise (ReError "nothing to repeat" pos)
  | At _ :: _ => Raise (ReError "nothing to repeat" pos)
  | Repeat _ _ _ :: _ => Raise (ReError "multiple repeat" pos)
  | One a :: acc' => Ok (Repeat lo hi a :: acc')
  end.

(** The bounds of a braced repeat are compared before the repeated item
    is looked at; the error is reported just after the brace. *)
Definition bounds_ordered (lo : nat) (hi : option nat) : bool :=
  match hi with
  | Some h => (lo <=? h)%nat
  | None => true
  end.

(** A repeat directly followed by [?] or [+] is lazy or possessive. *)
Definition after_repeat (s : list ascii) : bool :=
  match s with
  | "?"%char :: _ => false
  | "+"%char :: _ => false
  | _ => true
  end.

Fixpoint parse_items (fuel : nat) (pos : nat) (acc : list item) (s : list ascii)
  : res pattern :=
  match fuel with
  | O => Raise ReOutsideFragment
  | S fuel' =>
      let next (it : item) (used : nat) (rest : list ascii) :=
        parse_items fuel' (pos + used) (it :: acc) rest in
      let repeated (lo : nat) (hi : option nat) (used : nat) (rest : list ascii) :=
        acc' <- repeat_last acc lo hi pos ;;
        if after_repeat rest
        then parse_items fuel' (pos + used) acc' rest
        else Raise ReOutsideFragment in
      match s with
      | [] => Ok (rev acc)
      | "\"%char :: c :: rest =>
          match escape c with
          | Some it => next it 2%nat rest
          | None => Raise ReOutsideFragment
          end
      | "\"%char :: [] => Raise (ReError "bad escape (end of pattern)" pos)
      | "["%char :: rest =>
          let '(negated, body) :=
            match rest with
            | "^"%char :: body => (true, body)
            | _ => (false, rest)
            end in
          match parse_class (S (List.length body)) true body with
          | Some (items, rest') =>
              next (One (Class negated items))
                   (List.length s - List.length rest')%nat rest'
          | None => Raise ReOutsideFragment
          end
      | "."%char :: rest => next (One AnyChar) 1%nat rest
      | "^"%char :: rest => next (At AtBeginning) 1%nat rest
      | "$"%char :: rest => next (At AtEnd) 1%nat rest
      | "*"%char :: rest => repeated 0%nat None 1%nat rest
      | "+"%char :: rest => repeated 1%nat None 1%nat rest
      | "?"%char :: rest => repeated 0%nat (Some 1%nat) 1%nat rest
      | "{"%char :: rest =>
          match parse_braces rest with
          | Some (lo, hi, rest') =>
              if bounds_ordered lo hi
              then repeated lo hi (List.length s - List.length rest')%nat rest'
              else Raise (ReError "min repeat greater than max repeat" (S pos))
          | None => next (One (Lit "{"%char)) 1%nat rest
          end
      | "("%char :: _ => Raise ReOutsideFragment
      | ")"%char :: _ => Raise ReOutsideFragment
      | "|"%char :: _ => Raise ReOutsideFragment
      | c :: rest => next (One (Lit c)) 1%nat rest
      end
  end.

(** [re.compile(source)] *)
Definition compile (source : string) : res pattern :=
  parse_items (S (String.length source)) 0%nat [] (Str.chars source).

(** *** Matching *)

Definition in_category (k : category) (c : ascii) : bool :=
  match k with
  | Digit => Str.is_digit c
  | NotDigit => negb (Str.is_digit c)
  | Space => Str.is_space c
  | NotSpace => negb (Str.is_space c)
  | Word => Str.is_word c
  | NotWord => negb (Str.is_word c)
  end.

Definition in_class_item (m : class_item) (c : ascii) : bool :=
  match m with
  | CChar a => Ascii.eqb a c
  | CRange lo hi => Str.in_range (Str.code lo) (Str.code hi) c
  | CCat k => in_category k c
  end.

Definition in_class (items : list class_item) (c : ascii) : bool :=
  existsb (fun m => in_class_item m c) items.

(** [ignorecase] is the flag [re.IGNORECASE]. *)
Definition atom_matches (ignorecase : bool) (a : atom) (c : ascii) : bool :=
  match a with
  | Lit l =>
      if ignorecase
      then Ascii.eqb (Str.lower_char l) (Str.lower_char c)
      else Ascii.eqb l c
  | AnyChar => negb (Ascii.eqb c "010"%char)
  | Class negated items =>
      xorb negated
        (if ignorecase
         then in_class items (Str.lower_char c) || in_class items (Str.upper_char c)
         else in_class items c)
  end.

Definition is_word_opt (c : option ascii) : bool :=
  match c with
  | Some a => Str.is_word a
  | None => false
  end.

(** [prev] is the character before the current position (none at the
    start of the text), [s] the text from the current position on. *)
Definition anchor_holds (k : anchor) (prev : option ascii) (s : list ascii) : bool :=
  match k with
  | AtBeginning => match prev with None => true | Some _ => false end
  | AtEnd =>
      match s with
      | [] => true
      | ["010"%char] => true
      | _ => false
      end
  | AtBoundary => xorb (is_word_opt prev) (is_word_opt (hd_error s))
  | AtNonBoundary => negb (xorb (is_word_opt prev) (is_word_opt (hd_error s)))
  end.

Definition under (count : nat) (hi : option nat) : bool :=
  match hi with
  | Some h => (count <? h)%nat
  | None => true
  end.

(** Length of the match of [p] at the current position, if any.  A
    repeat first takes as many characters as it can and gives them back
    one at a time while the rest of the pattern fails. *)
Fixpoint match_here (ignorecase : bool) (p : pattern)
         (prev : option ascii) (s : list ascii) {struct p} : option nat :=
  match p with
  | [] => Some 0%nat
  | One a :: p' =>
      match s with
      | c :: s' =>
          if atom_matches ignorecase a c
          then option_map S (match_here ignorecase p' (Some c) s')
          else None
      | [] => None
      end
  | At k :: p' =>
      if anchor_holds k prev s then match_here ignorecase p' prev s else None
  | Repeat lo hi a :: p' =>
      (fix rep (count : nat) (prev : option ascii) (s : list ascii) {struct s}
         : option nat :=
         let stop :=
           if (lo <=? count)%nat then match_here ignorecase p' prev s else None in
         match s with
         | c :: s' =>
             if under count hi && atom_matches ignorecase a c
             then match rep (S count) (Some c) s' with
                  | Some n => Some (S n)
                  | None => stop
                  end
             else stop
         | [] => stop
         end) 0%nat prev s
  end.

(** Scans the text from left to right.  [skip] counts the characters of
    the last match that are still to be passed over; a match is tried
    only when it is zero.  An empty match is recorded and the scan moves
    on by one character. *)
Fixpoint scan (ignorecase : bool) (p : pattern) (skip : nat)
         (prev : option ascii) (s : list ascii) {struct s} : list string :=
  let found :=
    match skip with
    | O => match_here ignorecase p prev s
    | S _ => None
    end in
  match found with
  | Some n =>
      let m := Str.of_chars (firstn n s) in
      match s with
      | [] => [m]
      | c :: s' => m :: scan ignorecase p (Nat.pred n) (Some c) s'
      end
  | None =>
      match s with
      | [] => []
      | c :: s' => scan ignorecase p (Nat.pred skip) (Some c) s'
      end
  end.

(** [re.findall(source, text, flags)] for a pattern without groups. *)
Definition findall (source text : string) (ignorecase : bool) : res (list string) :=
  p <- compile source ;;
  Ok (scan ignorecase p 0%nat None (Str.chars text)).

(** Truth value of [re.match(source, text)]. *)
Definition matches (source text : string) : res bool :=
  p <- compile source ;;
  Ok (match match_here false p None (Str.chars text) with
      | Some _ => true
      | None => false
      end).

End Re.

(** ** Data model *)

(** [LineItem]; [bounding_box] is never assigned and stays [None]. *)
Record LineItem : Type := mkLineItem {
  item_number : string;
  description : string;
  quantity : string;
  unit_price : string;
  total_price : string;
  confidence : Q;
  bounding_box : option (Z * Z * Z * Z)
}.

Record TableRegion : Type := mkTableRegion {
  region_x : Z;
  region_y : Z;
  region_width : Z;
  region_height : Z;
  region_confidence : Q
}.

(** One entry of [vendor_patterns]; [column_patterns] keeps the insertion
    order of the dict, which is the order [items()] iterates in. *)
Record VendorPattern : Type := mkVendorPattern {
  table_start_keywords : list string;
  table_end_keywords : list string;
  column_patterns : list (string * string)
}.

(** The columns of the recognizer's output that the program reads:
    [ocr_data['text']], [['top']], [['left']], [['width']], [['height']],
    [['conf']]. *)
Record ocr_data : Type := mkOcr {
  text : list string;
  top : list Z;
  left : list Z;
  width : list Z;
  height : list Z;
  conf : list Z
}.

(** The dict appended to [table_words]. *)
Record word : Type := mkWord {
  w_text : string;
  w_x : Z;
  w_y : Z;
  w_width : Z;
  w_height : Z;
  w_confidence : Z
}.

(** ** Vendor pattern registry *)

Definition acme : VendorPattern :=
  {| table_start_keywords := ["Item"; "Description"; "Qty"; "Price"; "Total"];
     table_end_keywords := ["Subtotal"; "Tax"; "Total Due"];
     column_patterns :=
       [ ("item_number", "\\b\\d{3,6}\\b");
         ("description", "[A-Za-z][A-Za-z\\s-]{5,50}");
         ("quantity", "\\b\\d{1,3}\\b");
         ("unit_price", "\\$?\\d+\\.\\d{2}");
         ("total_price", "\\$?\\d+\\.\\d{2}") ] |}.

Definition techsupply : VendorPattern :=
  {| table_start_keywords := ["Part#"; "Item"; "Qty"; "Unit Cost"; "Amount"];
     table_end_keywords := ["Subtotal"; "Sales Tax"; "Total"];
     column_patterns :=
       [ ("item_number", "TS-\\d{4,}");
         ("description", "[A-Za-z][A-Za-z\\s-]{10,60}");
         ("quantity", "\\b\\d{1,4}\\b");
         ("unit_price", "\\$\\d+\\.\\d{2}");
         ("total_price", "\\$\\d+\\.\\d{2}") ] |}.

Definition generic : VendorPattern :=
  {| table_start_keywords := ["Item"; "Description"; "Quantity"; "Price"; "Amount"; "Total"];
     table_end_keywords := ["Subtotal"; "Tax"; "Total"; "Amount Due"];
     column_patterns :=
       [ ("item_number", "\\b[A-Z0-9-]{3,10}\\b");
         ("description", "[A-Za-z][A-Za-z\\s-]{5,50}");
         ("quantity", "\\b\\d{1,4}\\b");
         ("unit_price", "\\$?\\d+\\.\\d{2}");
         ("total_price", "\\$?\\d+\\.\\d{2}") ] |}.

(** The dict returned by [load_vendor_patterns]; the patterns are the
    contents of the raw strings of the source, character for character. *)
Definition load_vendor_patterns : list (string * VendorPattern) :=
  [ ("acme", acme); ("techsupply", techsupply); ("generic", generic) ].

(** [vendor_patterns[vendor_type]] *)
Fixpoint lookup_vendor (vendor_patterns : list (string * VendorPattern))
         (vendor_type : string) : res VendorPattern :=
  match vendor_patterns with
  | [] => Raise (KeyError vendor_type)
  | (k, v) :: rest =>
      if String.eqb k vendor_type then Ok v else lookup_vendor rest vendor_type
  end.

(** ** Table region detector *)

(** [word.strip() and any(keyword.lower() in word.lower() for ...)] *)
Definition keyword_hit (keywords : list string) (w : string) : bool :=
  Str.truthy (Str.strip w) && Str.any_keyword_in keywords w.

(** The first loop of [detect_table_region], from index [i] on. *)
Fixpoint find_table_start (keywords : list string) (tops : list Z)
         (i : nat) (words : list string) : res (option Z) :=
  match words with
  | [] => Ok None
  | w :: rest =>
      if keyword_hit keywords w
      then t <- get tops i ;; Ok (Some t)
      else find_table_start keywords tops (S i) rest
  end.

(** Truth value of [table_start_y]: neither [None] nor zero. *)
Definition start_truthy (table_start_y : option Z) : option Z :=
  match table_start_y with
  | Some s => if s =? 0 then None else Some s
  | None => None
  end.

(** The second loop of [detect_table_region], from index [i] on. *)
Fixpoint find_table_end (keywords : list string) (tops : list Z)
         (table_start_y : option Z) (i : nat) (words : list string)
  : res (option Z) :=
  match words with
  | [] => Ok None
  | w :: rest =>
      if keyword_hit keywords w
      then match start_truthy table_start_y with
           | Some s =>
               t <- get tops i ;;
               if s <? t then Ok (Some t)
               else find_table_end keywords tops table_start_y (S i) rest
           | None => find_table_end keywords tops table_start_y (S i) rest
           end
      else find_table_end keywords tops table_start_y (S i) rest
  end.

(** [[value(i) for i, word in enumerate(words)
      if table_start_y <= tops[i] <= table_end_y and word.strip()]] *)
Fixpoint band_values (value : nat -> res Z) (tops : list Z)
         (table_start_y table_end_y : Z) (i : nat) (words : list string)
  : res (list Z) :=
  match words with
  | [] => Ok []
  | w :: rest =>
      t <- get tops i ;;
      if (table_start_y <=? t) && (t <=? table_end_y) && Str.truthy (Str.strip w)
      then v <- value i ;;
           vs <- band_values value tops table_start_y table_end_y (S i) rest ;;
           Ok (v :: vs)
      else band_values value tops table_start_y table_end_y (S i) rest
  end.

(** [max(tops) + max(heights)] *)
Definition bottom_of_content (ocr : ocr_data) : res Z :=
  a <- py_max (top ocr) ;;
  b <- py_max (height ocr) ;;
  Ok (a + b).

(** The values of [table_start_y] and [table_end_y] when the bounds are
    computed; [None] when the function has returned [None]. *)
Definition table_band (patterns : VendorPattern) (ocr : ocr_data)
  : res (option (Z * Z)) :=
  table_start_y <-
    find_table_start (table_start_keywords patterns) (top ocr) 0 (text ocr) ;;
  table_end_y <-
    find_table_end (table_end_keywords patterns) (top ocr) table_start_y 0 (text ocr) ;;
  match table_start_y with
  | None => Ok None
  | Some s =>
      match table_end_y with
      | Some e => Ok (Some (s, e))
      | None => e <- bottom_of_content ocr ;; Ok (Some (s, e))
      end
  end.

Definition left_edge (ocr : ocr_data) (i : nat) : res Z := get (left ocr) i.

Definition right_edge (ocr : ocr_data) (i : nat) : res Z :=
  l <- get (left ocr) i ;;
  w <- get (width ocr) i ;;
  Ok (l + w).

Definition detect_table_region (vendor_patterns : list (string * VendorPattern))
           (ocr : ocr_data) (vendor_type : string) : res (option TableRegion) :=
  patterns <- lookup_vendor vendor_patterns vendor_type ;;
  band <- table_band patterns ocr ;;
  match band with
  | None => Ok None
  | Some (table_start_y, table_end_y) =>
      ls <- band_values (left_edge ocr) (top ocr) table_start_y table_end_y 0 (text ocr) ;;
      table_left <- py_min ls ;;
      rs <- band_values (right_edge ocr) (top ocr) table_start_y table_end_y 0 (text ocr) ;;
      table_right <- py_max rs ;;
      Ok (Some {| region_x := table_left;
                  region_y := table_start_y;
                  region_width := table_right - table_left;
                  region_height := table_end_y - table_start_y;
                  region_confidence := 8 # 10 |})
  end.

(** ** Row grouper *)

(** [list.sort(key=...)] and [sorted(..., key=...)] are stable; a stable
    sort is determined by its key, here written as insertion from the
    right. *)
Section StableSort.
Variable A : Type.
Variable key : A -> Z.

Fixpoint insert_by (a : A) (l : list A) : list A :=
  match l with
  | [] => [a]
  | b :: l' => if key a <=? key b then a :: l else b :: insert_by a l'
  end.

Fixpoint sort_by (l : list A) : list A :=
  match l with
  | [] => []
  | a :: l' => insert_by a (sort_by l')
  end.
End StableSort.

Arguments insert_by {A} key a l.
Arguments sort_by {A} key l.

(** [if current_row: rows.append(sorted(current_row, key=x))] *)
Definition flush_row (rows : list (list word)) (current_row : list word)
  : list (list word) :=
  match current_row with
  | [] => rows
  | _ :: _ => rows ++ [sort_by w_x current_row]
  end.

(** The loop over [words[1:]] and the final flush. *)
Fixpoint group_loop (tolerance : Z) (words : list word) (rows : list (list word))
         (current_row : list word) (current_y : Z) : list (list word) :=
  match words with
  | [] => flush_row rows current_row
  | w :: rest =>
      if Z.abs (w_y w - current_y) <=? tolerance
      then group_loop tolerance rest rows (current_row ++ [w]) current_y
      else group_loop tolerance rest (flush_row rows current_row) [w] (w_y w)
  end.

Definition group_words_by_rows (words : list word) (tolerance : Z) : list (list word) :=
  match sort_by w_y words with
  | [] => []
  | w0 :: rest => group_loop tolerance rest [] [w0] (w_y w0)
  end.

Definition default_tolerance : Z := 10.

(** ** Row classifier *)

Definition header_keywords : list string :=
  ["Item"; "Description"; "Qty"; "Price"; "Total"; "Part#"; "Amount"].

Definition empty_line_item : LineItem :=
  {| item_number := ""; description := ""; quantity := "";
     unit_price := ""; total_price := ""; confidence := 0;
     bounding_box := None |}.

Definition set_item_number (li : LineItem) (v : string) : LineItem :=
  mkLineItem v (description li) (quantity li) (unit_price li) (total_price li)
             (confidence li) (bounding_box li).
Definition set_description (li : LineItem) (v : string) : LineItem :=
  mkLineItem (item_number li) v (quantity li) (unit_price li) (total_price li)
             (confidence li) (bounding_box li).
Definition set_quantity (li : LineItem) (v : string) : LineItem :=
  mkLineItem (item_number li) (description li) v (unit_price li) (total_price li)
             (confidence li) (bounding_box li).
Definition set_unit_price (li : LineItem) (v : string) : LineItem :=
  mkLineItem (item_number li) (description li) (quantity li) v (total_price li)
             (confidence li) (bounding_box li).
Definition set_total_price (li : LineItem) (v : string) : LineItem :=
  mkLineItem (item_number li) (description li) (quantity li) (unit_price li) v
             (confidence li) (bounding_box li).
Definition set_confidence (li : LineItem) (v : Q) : LineItem :=
  mkLineItem (item_number li) (description li) (quantity li) (unit_price li)
             (total_price li) v (bounding_box li).

(** The body of [if matches:] for one field. *)
Definition assign_field (li : LineItem) (field : string) (matches : list string)
  : LineItem :=
  match matches with
  | [] => li
  | first :: _ =>
      if String.eqb field "item_number" then set_item_number li first
      else if String.eqb field "quantity" then set_quantity li first
      else if String.eqb field "unit_price"
           then set_unit_price li (Str.remove_char "$" first)
      else if String.eqb field "total_price"
           then set_total_price li (Str.remove_char "$" (last matches first))
      else li
  end.

(** [for field, pattern in patterns["column_patterns"].items(): ...] *)
Fixpoint extract_fields (columns : list (string * string)) (row_text : string)
         (li : LineItem) : res LineItem :=
  match columns with
  | [] => Ok li
  | (field, pattern) :: rest =>
      matches <- Re.findall pattern row_text true ;;
      extract_fields rest row_text (assign_field li field matches)
  end.

Definition price_like : string := "^\\$?\\d+\\.?\\d*$".
Definition number_like : string := "^\\d{1,4}$".

(** The test that admits a word's stripped text to the description. *)
Definition is_description_word (t : string) : res bool :=
  if Str.truthy t then
    m1 <- Re.matches price_like t ;;
    if m1 then Ok false
    else m2 <- Re.matches number_like t ;;
         if m2 then Ok false
         else Ok (2 <? String.length t)%nat
  else Ok false.

Fixpoint description_words (row_words : list word) : res (list string) :=
  match row_words with
  | [] => Ok []
  | w :: rest =>
      let t := Str.strip (w_text w) in
      keep <- is_description_word t ;;
      more <- description_words rest ;;
      Ok (if keep then t :: more else more)
  end.

(** Number of non-empty fields among the five. *)
Definition fields_found (li : LineItem) : nat :=
  List.length
    (filter Str.truthy
       [item_number li; description li; quantity li; unit_price li; total_price li]).

(** [min(fields_found / 5.0, 1.0)] *)
Definition confidence_of (found : nat) : Q :=
  Qmin (Z.of_nat found # 5) 1.

(** [" ".join([w['text'] for w in row_words])] *)
Definition row_text (row_words : list word) : string :=
  Str.join " " (map w_text row_words).

Definition parse_row_to_line_item (row_words : list word) (patterns : VendorPattern)
  : res (option LineItem) :=
  if (List.length row_words <? 2)%nat then Ok None
  else
    if Str.any_keyword_in header_keywords (row_text row_words) then Ok None
    else
      li <- extract_fields (column_patterns patterns) (row_text row_words)
              empty_line_item ;;
      ws <- description_words row_words ;;
      let li := set_description li (Str.join " " (firstn 5 ws)) in
      Ok (Some (set_confidence li (confidence_of (fields_found li)))).

(** ** Word filter and extraction *)

Definition confidence_threshold : Z := 30.

(** The condition under which word [i] is appended to [table_words]. *)
Definition in_table (ocr : ocr_data) (region : TableRegion) (i : nat) (w : string)
  : res bool :=
  if Str.truthy (Str.strip w) then
    c <- get (conf ocr) i ;;
    if confidence_threshold <? c then
      l <- get (left ocr) i ;;
      if (region_x region <=? l) && (l <=? region_x region + region_width region) then
        t <- get (top ocr) i ;;
        Ok ((region_y region <=? t) && (t <=? region_y region + region_height region))
      else Ok false
    else Ok false
  else Ok false.

Definition word_at (ocr : ocr_data) (i : nat) (w : string) : res word :=
  x <- get (left ocr) i ;;
  y <- get (top ocr) i ;;
  wd <- get (width ocr) i ;;
  h <- get (height ocr) i ;;
  c <- get (conf ocr) i ;;
  Ok {| w_text := w; w_x := x; w_y := y; w_width := wd; w_height := h;
        w_confidence := c |}.

(** The loop that fills [table_words], from index [i] on. *)
Fixpoint table_words (ocr : ocr_data) (region : TableRegion) (i : nat)
         (words : list string) : res (list word) :=
  match words with
  | [] => Ok []
  | w :: rest =>
      keep <- in_table ocr region i w ;;
      if keep
      then d <- word_at ocr i w ;;
           more <- table_words ocr region (S i) rest ;;
           Ok (d :: more)
      else table_words ocr region (S i) rest
  end.

(** [any([line_item.item_number, line_item.description, line_item.quantity])] *)
Definition has_identity (li : LineItem) : bool :=
  existsb Str.truthy [item_number li; description li; quantity li].

(** The loop over [rows] that fills [line_items]. *)
Fixpoint collect_line_items (rows : list (list word)) (patterns : VendorPattern)
  : res (list LineItem) :=
  match rows with
  | [] => Ok []
  | row_words :: rest =>
      line_item <- parse_row_to_line_item row_words patterns ;;
      more <- collect_line_items rest patterns ;;
      match line_item with
      | Some li => if has_identity li then Ok (li :: more) else Ok more
      | None => Ok more
      end
  end.

Definition extract_line_items_from_region
           (vendor_patterns : list (string * VendorPattern))
           (ocr : ocr_data) (table_region : option TableRegion)
           (vendor_type : string) : res (list LineItem) :=
  match table_region with
  | None => Ok []
  | Some region =>
      patterns <- lookup_vendor vendor_patterns vendor_type ;;
      tw <- table_words ocr region 0 (text ocr) ;;
      let rows := group_words_by_rows tw default_tolerance in
      collect_line_items rows patterns
  end.

(** ** Pipeline *)

(** What [extract_text_with_coordinates] hands over: the error dict, or
    the recognized text and its column data (the page image is not
    read by the functions modelled here). *)
Inductive extraction_result : Type :=
| ExtractionError (error : string)
| Extracted (full_text : string) (ocr : ocr_data).

(** [{"error": f"OCR Error: {str(e)}"}] *)
Definition ocr_error (e : string) : extraction_result :=
  ExtractionError ("OCR Error: " ++ e).

(** The dict returned by the pipeline, without the visualization and the
    timestamp. *)
Inductive pipeline_result : Type :=
| ErrorResult (error : string)
| SuccessResult (vendor_type : string) (table_region : TableRegion)
                (line_items_count : nat) (line_items : list LineItem)
                (full_text : string) (processing_method : string).

Definition region_not_found : string := "Could not detect table region in invoice".

(** [process_invoice_with_dynamic_line_items], from the extraction result
    on. *)
Definition process_invoice_with_dynamic_line_items
           (vendor_patterns : list (string * VendorPattern))
           (extraction : extraction_result) (vendor_type : string)
  : res pipeline_result :=
  match extraction with
  | ExtractionError e => Ok (ErrorResult e)
  | Extracted full_text ocr =>
      table_region <- detect_table_region vendor_patterns ocr vendor_type ;;
      match table_region with
      | None => Ok (ErrorResult region_not_found)
      | Some region =>
          line_items <- extract_line_items_from_region vendor_patterns ocr
                          (Some region) vendor_type ;;
          Ok (SuccessResult vendor_type region (List.length line_items) line_items
                full_text "Dynamic Table Detection + Line Item Extraction")
      end
  end.

(** ** The line scan of [basic_parsing]

    The last part of [basic_parsing] (section [invoice5]): the candidate
    invoice numbers and the potential line items.  The earlier part of
    the function uses patterns with groups and is not modelled. *)

(** Truth value of [re.search(source, text)]: the first position, from
    the left, at which the pattern matches. *)
Fixpoint search_from (ignorecase : bool) (p : Re.pattern)
         (prev : option ascii) (s : list ascii) : bool :=
  match Re.match_here ignorecase p prev s with
  | Some _ => true
  | None =>
      match s with
      | [] => false
      | c :: s' => search_from ignorecase p (Some c) s'
      end
  end.

Definition re_search (source text : string) (ignorecase : bool) : res bool :=
  p <- Re.compile source ;;
  Ok (search_from ignorecase p None (Str.chars text)).

(** [s.split(sep)] for a non-empty separator: the pieces between the
    occurrences of [sep], found from left to right without overlap.
    [piece] holds the current piece in reverse and [skip] the characters
    of a separator still to be passed over. *)
Fixpoint split_from (sep s : string) (skip : nat) (piece : list ascii) : list string :=
  match s with
  | EmptyString => [Str.of_chars (rev piece)]
  | String c s' =>
      match skip with
      | S k => split_from sep s' k piece
      | O =>
          if Str.starts_with sep s
          then Str.of_chars (rev piece)
               :: split_from sep s' (Nat.pred (String.length sep)) []
          else split_from sep s' 0 (c :: piece)
      end
  end.

Definition str_split (s sep : string) : list string := split_from sep s 0 [].

(** [re.findall(r'\\b[A-Z0-9]{3,}\\b', text)[:5]], the pattern being the
    contents of the raw string. *)
Definition possible_invoice_numbers (text : string) : res (list string) :=
  found <- Re.findall "\\b[A-Z0-9]{3,}\\b" text false ;;
  Ok (firstn 5 found).

(** The loop over [lines] that fills [line_items]. *)
Fixpoint potential_lines (lines : list string) : res (list string) :=
  match lines with
  | [] => Ok []
  | line :: rest =>
      hit <- re_search "\\d+.*\\$\\d+" line false ;;
      more <- potential_lines rest ;;
      Ok (if hit && (5 <? String.length (Str.strip line))%nat
          then Str.strip line :: more
          else more)
  end.

(** [text.split('\\n')], the loop, and [line_items[:10]]; the separator
    is the contents of the string literal, a backslash and a letter n. *)
Definition potential_line_items (text : string) : res (list string) :=
  line_items <- potential_lines (str_split text "\n") ;;
  Ok (firstn 10 line_items).

(** The text holds no backslash. *)
Definition backslash_free (text : string) : Prop :=
  Forall (fun c => c <> "\"%char) (Str.chars text).

(** ** Inputs and predicates used in the statements *)

(** The recognizer returns columns of one length. *)
Definition aligned (ocr : ocr_data) : Prop :=
  List.length (top ocr) = List.length (text ocr) /\
  List.length (left ocr) = List.length (text ocr) /\
  List.length (width ocr) = List.length (text ocr) /\
  List.length (height ocr) = List.length (text ocr) /\
  List.length (conf ocr) = List.length (text ocr).

(** [m] is the largest member of [l]. *)
Definition is_max (m : Z) (l : list Z) : Prop :=
  In m l /\ forall a, In a l -> a <= m.

Definition is_min (m : Z) (l : list Z) : Prop :=
  In m l /\ forall a, In a l -> m <= a.

(** Bottom edge [top + height] of every word, in stream order. *)
Fixpoint bottom_edges (tops heights : list Z) : list Z :=
  match tops, heights with
  | t :: tops', h :: heights' => (t + h) :: bottom_edges tops' heights'
  | _, _ => []
  end.

(** Word [i] of the stream has a non-blank text and lies in the band. *)
Definition in_band (ocr : ocr_data) (s e : Z) (i : nat) : Prop :=
  exists w t,
    nth_error (text ocr) i = Some w /\ nth_error (top ocr) i = Some t /\
    Str.truthy (Str.strip w) = true /\ s <= t <= e.

(** The bounding box [(l, t, w, h)] lies inside the rectangle of [r]. *)
Definition encloses (r : TableRegion) (l t w h : Z) : Prop :=
  region_x r <= l /\ l + w <= region_x r + region_width r /\
  region_y r <= t /\ t + h <= region_y r + region_height r.

(** A header word taller than the words below it. *)
Definition tall_header_ocr : ocr_data :=
  {| text := ["Item"; "101"];
     top := [10; 50];
     left := [10; 10];
     width := [30; 30];
     height := [100; 10];
     conf := [95; 95] |}.

(** Order by an integer key. *)
Definition key_le {A : Type} (key : A -> Z) (a b : A) : Prop := key a <= key b.

(** A row is well formed: it has a word, any two of its words are at
    most [tolerance] apart vertically, and it is ordered by [x]. *)
Definition row_ok (tolerance : Z) (row : list word) : Prop :=
  row <> [] /\
  (forall a b, In a row -> In b row -> Z.abs (w_y a - w_y b) <= tolerance) /\
  StronglySorted (key_le w_x) row.

(** Every word of the first row is strictly above every word of the
    second. *)
Definition row_above (r1 r2 : list word) : Prop :=
  forall a b, In a r1 -> In b r2 -> w_y a < w_y b.

Definition rows_below (rows : list (list word)) (y : Z) : Prop :=
  forall row a, In row rows -> In a row -> w_y a < y.

(** The first word of [r1] is strictly above the first word of [r2]. *)
Definition first_word_above (r1 r2 : list word) : Prop :=
  forall a b, hd_error r1 = Some a -> hd_error r2 = Some b -> w_y a < w_y b.

(** The region the detector returns on [tall_header_ocr]. *)
Definition tall_header_region : TableRegion := mkTableRegion 10 10 30 140 (8 # 10).

(** The word list of the reference scenario.  The header row is placed at
    y = 50 in the columns of the data row; every word is 12 units high
    and recognized with confidence 95. *)
Definition reference_ocr : ocr_data :=
  {| text := ["Item"; "Description"; "Qty"; "Price"; "Total";
              "101"; "WidgetA"; "2"; "5.00"; "10.00"; "Subtotal"];
     top := [50; 50; 50; 50; 50; 100; 100; 100; 100; 100; 150];
     left := [10; 60; 200; 250; 300; 10; 60; 200; 250; 300; 200];
     width := [30; 90; 30; 40; 40; 30; 60; 10; 35; 40; 70];
     height := [12; 12; 12; 12; 12; 12; 12; 12; 12; 12; 12];
     conf := [95; 95; 95; 95; 95; 95; 95; 95; 95; 95; 95] |}.

(** The region the detector returns on the reference stream. *)
Definition reference_region : TableRegion := mkTableRegion 10 50 330 100 (8 # 10).

(** The reference stream followed by a white-space token to the right of
    the table, on the line of the data row. *)
Definition reference_with_blank_ocr : ocr_data :=
  {| text := text reference_ocr ++ [" "];
     top := top reference_ocr ++ [100];
     left := left reference_ocr ++ [400];
     width := width reference_ocr ++ [20];
     height := height reference_ocr ++ [12];
     conf := conf reference_ocr ++ [95] |}.

(** A stream whose header starts at the top of the page, followed by a
    data word and an end keyword further down. *)
Definition top_of_page_ocr : ocr_data :=
  {| text := ["Item"; "101"; "Subtotal"];
     top := [0; 100; 150];
     left := [10; 10; 200];
     width := [30; 30; 70];
     height := [12; 12; 12];
     conf := [95; 95; 95] |}.

Definition at_origin (t : string) : word :=
  {| w_text := t; w_x := 0; w_y := 0; w_width := 0; w_height := 0;
     w_confidence := 95 |}.

(** A vendor pattern with a single column, and a row of two blank words
    that it matches: the classifier fills [unit_price] only. *)
Definition spaces_as_price : VendorPattern :=
  {| table_start_keywords := ["Item"];
     table_end_keywords := ["Subtotal"];
     column_patterns := [("unit_price", " ")] |}.

Definition blank_row : list word := [at_origin " "; at_origin " "].

(** The row ["3 Widget $10.00 $30.00"], one word per token. *)
Definition two_price_row : list word :=
  [ {| w_text := "3"; w_x := 10; w_y := 100; w_width := 10; w_height := 12;
       w_confidence := 95 |};
    {| w_text := "Widget"; w_x := 60; w_y := 100; w_width := 60; w_height := 12;
       w_confidence := 95 |};
    {| w_text := "$10.00"; w_x := 250; w_y := 100; w_width := 40; w_height := 12;
       w_confidence := 95 |};
    {| w_text := "$30.00"; w_x := 300; w_y := 100; w_width := 40; w_height := 12;
       w_confidence := 95 |} ].

(** The words of [tall_header_ocr] as the filter records them. *)
Definition tall_header_words : list word :=
  [ mkWord "Item" 10 10 30 100 95; mkWord "101" 10 50 30 10 95 ].

(** A stream with a header row only. *)
Definition header_only_ocr : ocr_data :=
  {| text := ["Item"; "Qty"];
     top := [50; 50];
     left := [10; 200];
     width := [30; 30];
     height := [12; 12];
     conf := [95; 95] |}.




(** The pattern matches at no position of any text. *)
Definition never_matches (ignorecase : bool) (p : Re.pattern) : Prop :=
  forall prev s, Re.match_here ignorecase p prev s = None.

(** The stripped text of the word is not empty. *)
Definition non_blank (d : word) : Prop := Str.strip (w_text d) <> "".

(** * Properties *)

(** ** The result monad *)

Lemma bind_ok_inv (A B : Type) (c : res A) (k : A -> res B) (b : B) :
  (x <- c ;; k x) = Ok b -> exists a, c = Ok a /\ k a = Ok b.
Proof.
  destruct c as [a | e]; simpl; intros H.
  - exists a. split; [reflexivity | exact H].
  - discriminate H.
Qed.

Lemma bind_ret (A : Type) (c : res A) : (x <- c ;; Ok x) = c.
Proof. destruct c; reflexivity. Qed.

Tactic Notation "inv_bind" hyp(H) "as" ident(a) ident(Ha) :=
  apply bind_ok_inv in H; destruct H as (a & Ha & H).

(** ** Strings *)

Lemma lower_char_eqb (a b : ascii) :
  Ascii.eqb a b = true -> Ascii.eqb (Str.lower_char a) (Str.lower_char b) = true.
Proof.
  intros H. apply Ascii.eqb_eq in H. subst b. apply Ascii.eqb_refl.
Qed.

Lemma starts_with_lower (p s : string) :
  Str.starts_with p s = true -> Str.starts_with (Str.lower p) (Str.lower s) = true.
Proof.
  revert s. induction p as [| a p IH]; intros s H; simpl.
  - reflexivity.
  - destruct s as [| b s]; simpl in *; [discriminate |].
    apply andb_true_iff in H. destruct H as [H1 H2].
    rewrite (lower_char_eqb _ _ H1), (IH _ H2). reflexivity.
Qed.

Lemma contains_lower (sub s : string) :
  Str.contains sub s = true -> Str.contains (Str.lower sub) (Str.lower s) = true.
Proof.
  induction s as [| c s IH]; simpl; intros H.
  - rewrite orb_false_r in *. now apply (starts_with_lower sub EmptyString).
  - apply orb_true_iff in H. apply orb_true_iff. destruct H as [H | H].
    + left. now apply (starts_with_lower sub (String c s)).
    + right. now apply IH.
Qed.

Lemma any_keyword_in_intro (keywords : list string) (k t : string) :
  In k keywords -> Str.contains (Str.lower k) (Str.lower t) = true ->
  Str.any_keyword_in keywords t = true.
Proof.
  intros Hin Hc. unfold Str.any_keyword_in. apply existsb_exists.
  exists k. split; assumption.
Qed.

Lemma truthy_nonempty (s : string) : Str.truthy s = true <-> s <> "".
Proof.
  destruct s; simpl; split; intros H; try discriminate; try reflexivity.
  now contradiction H.
Qed.

Lemma generic_registered : lookup_vendor load_vendor_patterns "generic" = Ok generic.
Proof. reflexivity. Qed.

(** ** Row classifier: rejected rows *)

(** C5. A row of fewer than two words, or whose joined text contains a
    header keyword without regard to case (in particular one that
    contains both "Description" and "Qty"), is classified as [None]
    without raising, whatever the vendor pattern; the extraction loop
    then appends nothing for it and goes on with the remaining rows. *)
Theorem rejected_row_yields_no_line_item
        (row_words : list word) (patterns : VendorPattern) :
  (List.length row_words < 2)%nat \/
  (exists k, In k header_keywords /\
             Str.contains (Str.lower k) (Str.lower (row_text row_words)) = true) \/
  (Str.contains "Description" (row_text row_words) = true /\
   Str.contains "Qty" (row_text row_words) = true) ->
  parse_row_to_line_item row_words patterns = Ok None /\
  forall rest,
    collect_line_items (row_words :: rest) patterns = collect_line_items rest patterns.
Proof.
  intros H.
  assert (Hp : parse_row_to_line_item row_words patterns = Ok None).
  { unfold parse_row_to_line_item.
    destruct (List.length row_words <? 2)%nat eqn:Hlen; [reflexivity |].
    apply Nat.ltb_ge in Hlen.
    destruct H as [H | [(k & Hin & Hc) | (Hd & _)]].
    - lia.
    - now rewrite (any_keyword_in_intro header_keywords k _ Hin Hc).
    - apply contains_lower in Hd.
      rewrite (any_keyword_in_intro header_keywords "Description" _) ; auto.
      simpl. auto. }
  split; [exact Hp |].
  intros rest. simpl. rewrite Hp. simpl. apply bind_ret.
Qed.

Lemma rejected_row_yields_no_line_item_witness :
  parse_row_to_line_item [at_origin "Widget"] generic = Ok None /\
  forall rest,
    collect_line_items ([at_origin "Widget"] :: rest) generic
    = collect_line_items rest generic.
Proof.
  apply rejected_row_yields_no_line_item. left. simpl. lia.
Defined.

(** ** Table region detector: the two keyword searches *)

Lemma find_table_start_no_hit (keywords : list string) (tops : list Z)
      (words : list string) (i : nat) :
  Forall (fun w => Str.any_keyword_in keywords w = false) words ->
  find_table_start keywords tops i words = Ok None.
Proof.
  intros H. revert i. induction H as [| w words Hw _ IH]; intros i; simpl.
  - reflexivity.
  - unfold keyword_hit. rewrite Hw, andb_false_r. apply IH.
Qed.

Lemma find_table_end_falsy_start (keywords : list string) (tops : list Z)
      (start : option Z) (words : list string) (i : nat) :
  start_truthy start = None ->
  find_table_end keywords tops start i words = Ok None.
Proof.
  intros Hs. revert i. induction words as [| w words IH]; intros i; simpl.
  - reflexivity.
  - rewrite Hs. destruct (keyword_hit keywords w); apply IH.
Qed.

Lemma table_band_no_start (patterns : VendorPattern) (ocr : ocr_data) :
  Forall (fun w => Str.any_keyword_in (table_start_keywords patterns) w = false)
         (text ocr) ->
  table_band patterns ocr = Ok None.
Proof.
  intros H. unfold table_band.
  rewrite (find_table_start_no_hit _ _ _ 0 H). simpl.
  now rewrite find_table_end_falsy_start.
Qed.

(** C4. When no word contains a start keyword of the vendor in use, the
    pipeline returns the error result "Could not detect table region in
    invoice": it does not raise, the result holds no line item, and its
    message differs from every message of a failed recognition, which the
    pipeline passes through unchanged. *)
Theorem no_start_keyword_gives_region_error
        (vendor_patterns : list (string * VendorPattern)) (vendor_type : string)
        (patterns : VendorPattern) (full_text : string) (ocr : ocr_data) :
  lookup_vendor vendor_patterns vendor_type = Ok patterns ->
  Forall (fun w => Str.any_keyword_in (table_start_keywords patterns) w = false)
         (text ocr) ->
  process_invoice_with_dynamic_line_items vendor_patterns
    (Extracted full_text ocr) vendor_type = Ok (ErrorResult region_not_found) /\
  forall e,
    process_invoice_with_dynamic_line_items vendor_patterns (ocr_error e) vendor_type
    = Ok (ErrorResult ("OCR Error: " ++ e)) /\
    ErrorResult ("OCR Error: " ++ e) <> ErrorResult region_not_found.
Proof.
  intros Hl Hw. split.
  - unfold process_invoice_with_dynamic_line_items, detect_table_region.
    rewrite Hl. simpl. rewrite (table_band_no_start _ _ Hw). reflexivity.
  - intros e. split; [reflexivity |].
    unfold region_not_found. simpl. intros H. inversion H.
Qed.

Lemma no_start_keyword_gives_region_error_witness :
  process_invoice_with_dynamic_line_items load_vendor_patterns
    (Extracted "" (mkOcr ["Invoice"; "42"] [10; 30] [5; 5] [60; 20] [12; 12] [90; 90]))
    "generic" = Ok (ErrorResult region_not_found) /\
  forall e,
    process_invoice_with_dynamic_line_items load_vendor_patterns (ocr_error e) "generic"
    = Ok (ErrorResult ("OCR Error: " ++ e)) /\
    ErrorResult ("OCR Error: " ++ e) <> ErrorResult region_not_found.
Proof.
  apply (no_start_keyword_gives_region_error load_vendor_patterns "generic" generic).
  - reflexivity.
  - simpl. repeat constructor.
Defined.

Lemma detect_region_band (vendor_patterns : list (string * VendorPattern))
      (ocr : ocr_data) (vendor_type : string) (patterns : VendorPattern)
      (r : TableRegion) :
  lookup_vendor vendor_patterns vendor_type = Ok patterns ->
  detect_table_region vendor_patterns ocr vendor_type = Ok (Some r) ->
  exists ls rs,
    table_band patterns ocr = Ok (Some (region_y r, region_y r + region_height r)) /\
    band_values (left_edge ocr) (top ocr) (region_y r)
      (region_y r + region_height r) 0 (text ocr) = Ok ls /\
    band_values (right_edge ocr) (top ocr) (region_y r)
      (region_y r + region_height r) 0 (text ocr) = Ok rs /\
    py_min ls = Ok (region_x r) /\
    py_max rs = Ok (region_x r + region_width r).
Proof.
  intros Hl H. unfold detect_table_region in H. rewrite Hl in H. simpl in H.
  inv_bind H as band Hband. destruct band as [[s e] |]; [| discriminate].
  inv_bind H as ls Hls. inv_bind H as tl Htl.
  inv_bind H as rs Hrs. inv_bind H as tr Htr.
  inversion H; subst r; clear H. simpl.
  replace (s + (e - s)) with e by lia.
  replace (tl + (tr - tl)) with tr by lia.
  exists ls, rs. repeat split; assumption.
Qed.

(** C10. When the first start-keyword word sits at vertical position 0,
    the end-keyword search returns nothing for every keyword list and
    every stream, so the band ends at [max(tops) + max(heights)]; a
    region that is returned starts at 0 and has that height. *)
Theorem zero_start_disables_end_search
        (vendor_patterns : list (string * VendorPattern)) (vendor_type : string)
        (patterns : VendorPattern) (ocr : ocr_data) :
  lookup_vendor vendor_patterns vendor_type = Ok patterns ->
  find_table_start (table_start_keywords patterns) (top ocr) 0 (text ocr)
  = Ok (Some 0) ->
  find_table_end (table_end_keywords patterns) (top ocr) (Some 0) 0 (text ocr)
  = Ok None /\
  table_band patterns ocr = (e <- bottom_of_content ocr ;; Ok (Some (0, e))) /\
  forall r,
    detect_table_region vendor_patterns ocr vendor_type = Ok (Some r) ->
    region_y r = 0 /\ bottom_of_content ocr = Ok (region_height r).
Proof.
  intros Hl Hs.
  assert (He : find_table_end (table_end_keywords patterns) (top ocr) (Some 0) 0
                 (text ocr) = Ok None)
    by now apply find_table_end_falsy_start.
  assert (Hb : table_band patterns ocr = (e <- bottom_of_content ocr ;; Ok (Some (0, e)))).
  { unfold table_band. rewrite Hs. simpl. rewrite He. reflexivity. }
  repeat split; try assumption.
  - destruct (detect_region_band _ _ _ _ _ Hl H) as (ls & rs & Hband & _).
    rewrite Hb in Hband. inv_bind Hband as e He'. now inversion Hband.
  - destruct (detect_region_band _ _ _ _ _ Hl H) as (ls & rs & Hband & _).
    rewrite Hb in Hband. inv_bind Hband as e He'. inversion Hband as [[H0 H1]].
    rewrite He'. f_equal. lia.
Qed.

Lemma zero_start_disables_end_search_witness :
  find_table_end (table_end_keywords generic) (top top_of_page_ocr) (Some 0) 0
    (text top_of_page_ocr) = Ok None /\
  table_band generic top_of_page_ocr
  = (e <- bottom_of_content top_of_page_ocr ;; Ok (Some (0, e))) /\
  forall r,
    detect_table_region load_vendor_patterns top_of_page_ocr "generic" = Ok (Some r) ->
    region_y r = 0 /\ bottom_of_content top_of_page_ocr = Ok (region_height r).
Proof.
  apply (zero_start_disables_end_search load_vendor_patterns "generic" generic);
    reflexivity.
Defined.

(** ** Maxima and minima *)

Lemma fold_max_spec (l : list Z) (a : Z) :
  In (fold_left Z.max l a) (a :: l) /\
  forall b, In b (a :: l) -> b <= fold_left Z.max l a.
Proof.
  revert a. induction l as [| c l IH]; intros a; simpl.
  - split; [now left | intros b [-> | []]; lia].
  - destruct (IH (Z.max a c)) as [Hin Hle]. split.
    + destruct Hin as [Hin | Hin]; [| right; right; exact Hin].
      destruct (Z.max_spec a c) as [[_ E] | [_ E]];
        first [left; congruence | right; left; congruence].
    + intros b [-> | [-> | Hb]].
      * specialize (Hle (Z.max b c) (or_introl eq_refl)). lia.
      * specialize (Hle (Z.max a b) (or_introl eq_refl)). lia.
      * apply Hle. now right.
Qed.

Lemma fold_min_spec (l : list Z) (a : Z) :
  In (fold_left Z.min l a) (a :: l) /\
  forall b, In b (a :: l) -> fold_left Z.min l a <= b.
Proof.
  revert a. induction l as [| c l IH]; intros a; simpl.
  - split; [now left | intros b [-> | []]; lia].
  - destruct (IH (Z.min a c)) as [Hin Hle]. split.
    + destruct Hin as [Hin | Hin]; [| right; right; exact Hin].
      destruct (Z.min_spec a c) as [[_ E] | [_ E]];
        first [left; congruence | right; left; congruence].
    + intros b [-> | [-> | Hb]].
      * specialize (Hle (Z.min b c) (or_introl eq_refl)). lia.
      * specialize (Hle (Z.min a b) (or_introl eq_refl)). lia.
      * apply Hle. now right.
Qed.

Lemma py_max_spec (l : list Z) (m : Z) : py_max l = Ok m -> is_max m l.
Proof.
  destruct l as [| a l]; simpl; intros H; inversion H.
  apply fold_max_spec.
Qed.

Lemma py_min_spec (l : list Z) (m : Z) : py_min l = Ok m -> is_min m l.
Proof.
  destruct l as [| a l]; simpl; intros H; inversion H.
  apply fold_min_spec.
Qed.

Lemma py_max_defined (l : list Z) : l <> [] -> exists m, py_max l = Ok m.
Proof. destruct l; [congruence | eexists; reflexivity]. Qed.

Lemma py_min_defined (l : list Z) : l <> [] -> exists m, py_min l = Ok m.
Proof. destruct l; [congruence | eexists; reflexivity]. Qed.

Lemma bottom_edges_bound (tops heights : list Z) (a b : Z) :
  is_max a tops -> is_max b heights ->
  Forall (fun v => v <= a + b) (bottom_edges tops heights).
Proof.
  intros [_ Ha] [_ Hb]. revert heights Hb Ha.
  induction tops as [| t tops IH]; intros [| h heights] Hb Ha; simpl;
    try constructor.
  - specialize (Ha t (or_introl eq_refl)).
    specialize (Hb h (or_introl eq_refl)). lia.
  - apply IH; intros c Hc; [apply Hb | apply Ha]; now right.
Qed.

(** ** Indexing the columns *)

Lemma get_ok (A : Type) (l : list A) (i : nat) (a : A) :
  get l i = Ok a <-> nth_error l i = Some a.
Proof.
  unfold get. destruct (nth_error l i); split; intros H; inversion H; reflexivity.
Qed.

Lemma get_defined (A : Type) (l : list A) (i : nat) :
  (i < List.length l)%nat -> exists a, get l i = Ok a.
Proof.
  intros H. unfold get. destruct (nth_error l i) eqn:E.
  - eexists; reflexivity.
  - apply nth_error_None in E. lia.
Qed.

Lemma find_table_start_hit (keywords : list string) (tops : list Z)
      (words : list string) (i : nat) (s : Z) :
  find_table_start keywords tops i words = Ok (Some s) ->
  exists k w,
    nth_error words k = Some w /\ keyword_hit keywords w = true /\
    nth_error tops (i + k) = Some s.
Proof.
  revert i. induction words as [| w words IH]; intros i H; simpl in H.
  - discriminate.
  - destruct (keyword_hit keywords w) eqn:Hk.
    + inv_bind H as t Ht. inversion H; subst t. apply get_ok in Ht.
      exists 0%nat, w. rewrite Nat.add_0_r. auto.
    + destruct (IH _ H) as (k & w' & Hw & Hh & Ht).
      exists (S k), w'. rewrite Nat.add_succ_r. auto.
Qed.

Lemma band_values_sound (value : nat -> res Z) (tops : list Z) (s e : Z)
      (words : list string) (i : nat) (vs : list Z) :
  band_values value tops s e i words = Ok vs ->
  forall v, In v vs ->
    exists k w t,
      nth_error words k = Some w /\ nth_error tops (i + k) = Some t /\
      Str.truthy (Str.strip w) = true /\ s <= t <= e /\ value (i + k)%nat = Ok v.
Proof.
  revert i vs. induction words as [| w words IH]; intros i vs H v Hin; simpl in H.
  - inversion H; subst vs. destruct Hin.
  - inv_bind H as t Ht. apply get_ok in Ht.
    destruct ((s <=? t) && (t <=? e) && Str.truthy (Str.strip w)) eqn:Hc.
    + inv_bind H as v0 Hv0. inv_bind H as vs0 Hvs0. inversion H; subst vs.
      destruct Hin as [-> | Hin].
      * exists 0%nat, w, t. rewrite Nat.add_0_r.
        apply andb_true_iff in Hc. destruct Hc as [Hc Hw].
        apply andb_true_iff in Hc. destruct Hc as [H1 H2].
        apply Z.leb_le in H1, H2. repeat split; auto.
      * destruct (IH _ _ Hvs0 _ Hin) as (k & w' & t' & Hk).
        exists (S k), w', t'. rewrite Nat.add_succ_r. exact Hk.
    + destruct (IH _ _ H _ Hin) as (k & w' & t' & Hk).
      exists (S k), w', t'. rewrite Nat.add_succ_r. exact Hk.
Qed.

Lemma band_values_complete (value : nat -> res Z) (tops : list Z) (s e : Z)
      (words : list string) (i : nat) (vs : list Z) :
  band_values value tops s e i words = Ok vs ->
  forall k w t,
    nth_error words k = Some w -> nth_error tops (i + k) = Some t ->
    Str.truthy (Str.strip w) = true -> s <= t <= e ->
    exists v, value (i + k)%nat = Ok v /\ In v vs.
Proof.
  revert i vs. induction words as [| w words IH]; intros i vs H k w0 t0 Hw Ht Hs Hb;
    simpl in H.
  - destruct k; discriminate.
  - inv_bind H as t Ht'. apply get_ok in Ht'.
    destruct k as [| k]; simpl in Hw.
    + inversion Hw; subst w0. rewrite Nat.add_0_r in *.
      rewrite Ht in Ht'. inversion Ht'; subst t.
      replace ((s <=? t0) && (t0 <=? e) && Str.truthy (Str.strip w)) with true in H.
      * inv_bind H as v0 Hv0. inv_bind H as vs0 Hvs0. inversion H; subst vs.
        exists v0. split; [assumption | now left].
      * symmetry. rewrite Hs.
        destruct (Z.leb_spec s t0), (Z.leb_spec t0 e); try lia; reflexivity.
    + rewrite Nat.add_succ_r in Ht.
      destruct ((s <=? t) && (t <=? e) && Str.truthy (Str.strip w)).
      * inv_bind H as v0 Hv0. inv_bind H as vs0 Hvs0. inversion H; subst vs.
        destruct (IH _ _ Hvs0 k w0 t0 Hw Ht Hs Hb) as (v & Hv & Hin).
        exists v. rewrite Nat.add_succ_r. split; [assumption | now right].
      * destruct (IH _ _ H k w0 t0 Hw Ht Hs Hb) as (v & Hv & Hin).
        exists v. rewrite Nat.add_succ_r. split; assumption.
Qed.

Lemma band_values_defined (value : nat -> res Z) (tops : list Z) (s e : Z)
      (words : list string) (i : nat) :
  (forall k, (k < List.length words)%nat ->
             (exists t, get tops (i + k) = Ok t) /\ exists v, value (i + k)%nat = Ok v) ->
  exists vs, band_values value tops s e i words = Ok vs.
Proof.
  revert i. induction words as [| w words IH]; intros i H; simpl.
  - eexists; reflexivity.
  - destruct (H 0%nat) as [[t Ht] [v Hv]]; [simpl; lia |].
    rewrite Nat.add_0_r in *. rewrite Ht. simpl.
    destruct (IH (S i)) as [vs Hvs].
    { intros k Hk. specialize (H (S k)). rewrite Nat.add_succ_r in H.
      apply H. simpl. lia. }
    rewrite Hvs, Hv. simpl.
    destruct ((s <=? t) && (t <=? e) && Str.truthy (Str.strip w)); eexists; reflexivity.
Qed.

(** ** Table region detector: the returned region *)

Lemma aligned_columns (ocr : ocr_data) (k : nat) :
  aligned ocr -> (k < List.length (text ocr))%nat ->
  (exists t, get (top ocr) k = Ok t) /\
  (exists l, left_edge ocr k = Ok l) /\
  (exists v, right_edge ocr k = Ok v).
Proof.
  intros (Ht & Hl & Hw & _) Hk.
  destruct (get_defined _ (top ocr) k) as [t Et]; [lia |].
  destruct (get_defined _ (left ocr) k) as [l El]; [lia |].
  destruct (get_defined _ (width ocr) k) as [w Ew]; [lia |].
  unfold left_edge, right_edge. rewrite El, Ew. simpl.
  repeat split; eexists; first [eassumption | reflexivity].
Qed.

(** On aligned columns the bounds are computed whenever some non-blank
    word lies in the band. *)
Lemma detect_returns_region (vendor_patterns : list (string * VendorPattern))
      (vendor_type : string) (patterns : VendorPattern) (ocr : ocr_data) (s e : Z) :
  lookup_vendor vendor_patterns vendor_type = Ok patterns ->
  aligned ocr ->
  table_band patterns ocr = Ok (Some (s, e)) ->
  (exists i, in_band ocr s e i) ->
  exists r,
    detect_table_region vendor_patterns ocr vendor_type = Ok (Some r) /\
    region_y r = s /\ region_y r + region_height r = e.
Proof.
  intros Hl Hal Hband (i & w & t & Hw & Ht & Hs & Hb).
  unfold detect_table_region. rewrite Hl. simpl. rewrite Hband. simpl.
  destruct (band_values_defined (left_edge ocr) (top ocr) s e (text ocr) 0)
    as [ls Hls].
  { intros k Hk. destruct (aligned_columns ocr k Hal Hk) as (H1 & H2 & _). auto. }
  destruct (band_values_defined (right_edge ocr) (top ocr) s e (text ocr) 0)
    as [rs Hrs].
  { intros k Hk. destruct (aligned_columns ocr k Hal Hk) as (H1 & _ & H3). auto. }
  rewrite Hls. simpl.
  destruct (band_values_complete _ _ _ _ _ _ _ Hls i w t Hw Ht Hs Hb) as (v & _ & Hv).
  destruct (band_values_complete _ _ _ _ _ _ _ Hrs i w t Hw Ht Hs Hb) as (v' & _ & Hv').
  destruct (py_min_defined ls) as [tl Htl]; [intros ->; destruct Hv |].
  destruct (py_max_defined rs) as [tr Htr]; [intros ->; destruct Hv' |].
  rewrite Htl. simpl. rewrite Hrs. simpl. rewrite Htr. simpl.
  eexists. split; [reflexivity |]. simpl. split; lia.
Qed.

(** Whatever the columns hold, a band whose end search found nothing
    ends at [max(tops) + max(heights)]. *)
Lemma table_band_default_end (patterns : VendorPattern) (ocr : ocr_data) (s : Z) :
  find_table_start (table_start_keywords patterns) (top ocr) 0 (text ocr)
  = Ok (Some s) ->
  find_table_end (table_end_keywords patterns) (top ocr) (Some s) 0 (text ocr)
  = Ok None ->
  table_band patterns ocr = (e <- bottom_of_content ocr ;; Ok (Some (s, e))).
Proof.
  intros Hs He. unfold table_band. rewrite Hs. simpl. rewrite He. reflexivity.
Qed.

(** The claim of C2 read literally fails: with a header word 100 units
    high at top 10 and a word 10 units high at top 50, the band ends at
    50 + 100 = 150, while the largest bottom edge of a word is 110. *)
Lemma end_default_is_not_largest_bottom_edge :
  find_table_start (table_start_keywords generic) (top tall_header_ocr) 0
    (text tall_header_ocr) = Ok (Some 10) /\
  find_table_end (table_end_keywords generic) (top tall_header_ocr) (Some 10) 0
    (text tall_header_ocr) = Ok None /\
  table_band generic tall_header_ocr = Ok (Some (10, 150)) /\
  py_max (bottom_edges (top tall_header_ocr) (height tall_header_ocr)) = Ok 110 /\
  150 <> 110.
Proof. repeat split; try reflexivity. lia. Qed.

(** C2 (amended). On aligned columns with non-negative heights, when a
    start keyword is found at [s] and the end search finds nothing, a
    region is returned whose band runs from [s] to [max(tops) +
    max(heights)]: the largest top of any word plus the largest height of
    any word.  That value bounds every word's bottom edge from above. *)
Theorem end_defaults_to_max_top_plus_max_height
        (vendor_patterns : list (string * VendorPattern)) (vendor_type : string)
        (patterns : VendorPattern) (ocr : ocr_data) (s : Z) :
  lookup_vendor vendor_patterns vendor_type = Ok patterns ->
  aligned ocr ->
  Forall (fun h => 0 <= h) (height ocr) ->
  find_table_start (table_start_keywords patterns) (top ocr) 0 (text ocr)
  = Ok (Some s) ->
  find_table_end (table_end_keywords patterns) (top ocr) (Some s) 0 (text ocr)
  = Ok None ->
  exists r a b,
    detect_table_region vendor_patterns ocr vendor_type = Ok (Some r) /\
    is_max a (top ocr) /\ is_max b (height ocr) /\
    region_y r = s /\ region_y r + region_height r = a + b /\
    Forall (fun v => v <= a + b) (bottom_edges (top ocr) (height ocr)).
Proof.
  intros Hl Hal Hh Hs He.
  destruct (find_table_start_hit _ _ _ _ _ Hs) as (k & w & Hw & Hk & Ht).
  simpl in Ht.
  assert (Hlen : (k < List.length (text ocr))%nat)
    by (apply nth_error_Some; congruence).
  destruct (py_max_defined (top ocr)) as [a Ha].
  { intros E. rewrite E in Ht. destruct k; discriminate. }
  destruct (py_max_defined (height ocr)) as [b Hb].
  { intros E. destruct Hal as (_ & _ & _ & H4 & _). rewrite E in H4. simpl in H4. lia. }
  pose proof (py_max_spec _ _ Ha) as Ma. pose proof (py_max_spec _ _ Hb) as Mb.
  assert (Hband : table_band patterns ocr = Ok (Some (s, a + b))).
  { rewrite (table_band_default_end _ _ _ Hs He).
    unfold bottom_of_content. rewrite Ha, Hb. reflexivity. }
  assert (Hsa : s <= a) by (apply Ma; eapply nth_error_In; eassumption).
  assert (Hb0 : 0 <= b).
  { destruct Mb as [Hin _]. rewrite Forall_forall in Hh. now apply Hh. }
  destruct (detect_returns_region _ _ _ ocr s (a + b) Hl Hal Hband) as (r & Hr & Hy & Hye).
  { exists k, w, s. unfold keyword_hit in Hk. apply andb_true_iff in Hk.
    repeat split; try tauto; lia. }
  exists r, a, b. repeat split; try assumption; try apply Ma; try apply Mb.
  now apply bottom_edges_bound.
Qed.

Lemma end_defaults_to_max_top_plus_max_height_witness :
  exists r a b,
    detect_table_region load_vendor_patterns tall_header_ocr "generic" = Ok (Some r) /\
    is_max a (top tall_header_ocr) /\ is_max b (height tall_header_ocr) /\
    region_y r = 10 /\ region_y r + region_height r = a + b /\
    Forall (fun v => v <= a + b)
           (bottom_edges (top tall_header_ocr) (height tall_header_ocr)).
Proof.
  apply (end_defaults_to_max_top_plus_max_height load_vendor_patterns "generic" generic).
  - reflexivity.
  - repeat split.
  - simpl. repeat constructor; lia.
  - reflexivity.
  - reflexivity.
Defined.

(** The enclosure part of C7 read literally fails.  On the reference
    stream followed by a blank token the region is (10, 50, 330, 100).
    The band ends at the top of "Subtotal" (150), so that word lies in the
    band while its box reaches down to 162; and the blank token at top 100
    lies in the band while its box starts at 400, right of the region,
    because blank words are left out of the horizontal bounds. *)
Lemma region_does_not_enclose_band_words :
  detect_table_region load_vendor_patterns reference_with_blank_ocr "generic"
  = Ok (Some reference_region) /\
  (nth_error (text reference_with_blank_ocr) 10 = Some "Subtotal" /\
   nth_error (left reference_with_blank_ocr) 10 = Some 200 /\
   nth_error (top reference_with_blank_ocr) 10 = Some 150 /\
   nth_error (width reference_with_blank_ocr) 10 = Some 70 /\
   nth_error (height reference_with_blank_ocr) 10 = Some 12 /\
   region_y reference_region <= 150
   <= region_y reference_region + region_height reference_region /\
   ~ encloses reference_region 200 150 70 12) /\
  (nth_error (text reference_with_blank_ocr) 11 = Some " " /\
   nth_error (left reference_with_blank_ocr) 11 = Some 400 /\
   nth_error (top reference_with_blank_ocr) 11 = Some 100 /\
   nth_error (width reference_with_blank_ocr) 11 = Some 20 /\
   nth_error (height reference_with_blank_ocr) 11 = Some 12 /\
   region_y reference_region <= 100
   <= region_y reference_region + region_height reference_region /\
   ~ encloses reference_region 400 100 20 12).
Proof.
  split; [reflexivity |].
  split; repeat split; try reflexivity; simpl; try lia;
    unfold encloses; simpl; lia.
Qed.

(** C7 (amended). A returned region has non-negative height, and
    non-negative width when no word has a negative width.  Every
    non-blank word whose top lies in the band [[y, y + height]] has its
    left and right edges inside [[x, x + width]].  When the end search
    found nothing, every word's bottom edge is at most [y + height]. *)
Theorem region_bounds
        (vendor_patterns : list (string * VendorPattern)) (vendor_type : string)
        (patterns : VendorPattern) (ocr : ocr_data) (r : TableRegion) :
  lookup_vendor vendor_patterns vendor_type = Ok patterns ->
  detect_table_region vendor_patterns ocr vendor_type = Ok (Some r) ->
  0 <= region_height r /\
  (Forall (fun w => 0 <= w) (width ocr) -> 0 <= region_width r) /\
  (forall i, in_band ocr (region_y r) (region_y r + region_height r) i ->
     exists l w,
       nth_error (left ocr) i = Some l /\ nth_error (width ocr) i = Some w /\
       region_x r <= l /\ l + w <= region_x r + region_width r) /\
  (find_table_end (table_end_keywords patterns) (top ocr) (Some (region_y r)) 0
     (text ocr) = Ok None ->
   Forall (fun v => v <= region_y r + region_height r)
          (bottom_edges (top ocr) (height ocr))).
Proof.
  intros Hl Hd.
  destruct (detect_region_band _ _ _ _ _ Hl Hd) as (ls & rs & Hband & Hls & Hrs & Hmin & Hmax).
  destruct (py_min_spec _ _ Hmin) as [Hin_min Hle_min].
  destruct (py_max_spec _ _ Hmax) as [Hin_max Hle_max].
  destruct (band_values_sound _ _ _ _ _ _ _ Hls _ Hin_min)
    as (k & w & t & Hw & Ht & Hs & Hb & Hv).
  simpl in Ht, Hv.
  assert (Hedges : forall i, in_band ocr (region_y r) (region_y r + region_height r) i ->
            exists l w,
              nth_error (left ocr) i = Some l /\ nth_error (width ocr) i = Some w /\
              In l ls /\ In (l + w) rs).
  { intros i (w' & t' & Hw' & Ht' & Hs' & Hb').
    destruct (band_values_complete _ _ _ _ _ _ _ Hls i w' t' Hw' Ht' Hs' Hb')
      as (l & El & Hl').
    destruct (band_values_complete _ _ _ _ _ _ _ Hrs i w' t' Hw' Ht' Hs' Hb')
      as (v & Ev & Hv').
    simpl in El, Ev. unfold left_edge in El. unfold right_edge in Ev.
    rewrite El in Ev. simpl in Ev.
    destruct (get (width ocr) i) as [wd |] eqn:Ewd; [| discriminate].
    simpl in Ev. inversion Ev; subst v.
    exists l, wd. apply get_ok in El, Ewd. auto. }
  split; [lia |]. split; [| split].
  - intros Hwd.
    destruct (Hedges k) as (l & wd & El & Ewd & Hinl & Hinr).
    { exists w, t. auto. }
    unfold left_edge in Hv. apply get_ok in Hv. rewrite El in Hv.
    inversion Hv; subst l.
    rewrite Forall_forall in Hwd.
    specialize (Hwd wd (nth_error_In _ _ Ewd)).
    specialize (Hle_max _ Hinr). lia.
  - intros i Hi. destruct (Hedges i Hi) as (l & wd & El & Ewd & Hinl & Hinr).
    exists l, wd. repeat split; auto.
  - intros He. unfold table_band in Hband.
    inv_bind Hband as st Hst. inv_bind Hband as en Hen.
    destruct st as [s |]; [| discriminate].
    destruct en as [e |].
    + inversion Hband; subst s. rewrite He in Hen. discriminate.
    + inv_bind Hband as e He'. inversion Hband; subst s e.
      unfold bottom_of_content in He'.
      inv_bind He' as a Ha. inv_bind He' as b Hb'. inversion He' as [E].
      apply bottom_edges_bound; now apply py_max_spec.
Qed.

Lemma region_bounds_witness :
  0 <= region_height tall_header_region /\
  (Forall (fun w => 0 <= w) (width tall_header_ocr) ->
   0 <= region_width tall_header_region) /\
  (forall i,
      in_band tall_header_ocr (region_y tall_header_region)
              (region_y tall_header_region + region_height tall_header_region) i ->
      exists l w,
        nth_error (left tall_header_ocr) i = Some l /\
        nth_error (width tall_header_ocr) i = Some w /\
        region_x tall_header_region <= l /\
        l + w <= region_x tall_header_region + region_width tall_header_region) /\
  (find_table_end (table_end_keywords generic) (top tall_header_ocr)
     (Some (region_y tall_header_region)) 0 (text tall_header_ocr) = Ok None ->
   Forall (fun v => v <= region_y tall_header_region + region_height tall_header_region)
          (bottom_edges (top tall_header_ocr) (height tall_header_ocr))).
Proof.
  apply (region_bounds load_vendor_patterns "generic" generic tall_header_ocr
                       tall_header_region);
    reflexivity.
Defined.

(** ** Stable sort *)

Section StableSortFacts.
Variable A : Type.
Variable key : A -> Z.

Lemma insert_by_perm (a : A) (l : list A) :
  Permutation (insert_by key a l) (a :: l).
Proof.
  induction l as [| b l IH]; simpl.
  - apply Permutation_refl.
  - destruct (key a <=? key b).
    + apply Permutation_refl.
    + eapply perm_trans; [apply perm_skip, IH | apply perm_swap].
Qed.

Lemma sort_by_perm (l : list A) : Permutation (sort_by key l) l.
Proof.
  induction l as [| a l IH]; simpl.
  - apply perm_nil.
  - eapply perm_trans; [apply insert_by_perm | apply perm_skip, IH].
Qed.

Lemma sort_by_in (l : list A) (a : A) : In a (sort_by key l) <-> In a l.
Proof.
  split; apply Permutation_in;
    [apply sort_by_perm | apply Permutation_sym, sort_by_perm].
Qed.

Lemma insert_by_sorted (a : A) (l : list A) :
  StronglySorted (key_le key) l -> StronglySorted (key_le key) (insert_by key a l).
Proof.
  induction 1 as [| b l Hs IH Hb]; simpl.
  - repeat constructor.
  - destruct (Z.leb_spec (key a) (key b)) as [Hab | Hab].
    + constructor; [now constructor |].
      constructor; [exact Hab |].
      eapply Forall_impl; [| exact Hb]. unfold key_le. intros c Hc. lia.
    + constructor; [exact IH |].
      apply Forall_forall. intros c Hc.
      apply (Permutation_in _ (insert_by_perm a l)) in Hc.
      destruct Hc as [<- | Hc].
      * unfold key_le. lia.
      * rewrite Forall_forall in Hb. now apply Hb.
Qed.

Lemma sort_by_sorted (l : list A) : StronglySorted (key_le key) (sort_by key l).
Proof.
  induction l as [| a l IH]; simpl.
  - constructor.
  - now apply insert_by_sorted.
Qed.

Lemma sort_by_nonempty (l : list A) : l <> [] -> sort_by key l <> [].
Proof.
  intros Hl E. apply Hl. apply Permutation_nil.
  rewrite <- E. apply sort_by_perm.
Qed.
End StableSortFacts.

Lemma strongly_sorted_snoc (A : Type) (R : A -> A -> Prop) (l : list A) (a : A) :
  StronglySorted R l -> Forall (fun b => R b a) l -> StronglySorted R (l ++ [a]).
Proof.
  induction 1 as [| b l Hs IH Hb]; intros Ha; simpl.
  - repeat constructor.
  - inversion Ha as [| ? ? Hba Hla]; subst.
    constructor; [now apply IH |].
    apply Forall_app. split; [exact Hb | now constructor].
Qed.

(** ** Row grouper *)

Section Grouping.
Variable tolerance : Z.
Hypothesis tolerance_nonneg : 0 <= tolerance.

Lemma flush_row_ok (rows : list (list word)) (current_row : list word)
      (current_y y' : Z) :
  Forall (row_ok tolerance) rows -> StronglySorted row_above rows ->
  rows_below rows current_y ->
  (forall a, In a current_row -> current_y <= w_y a <= current_y + tolerance) ->
  current_y + tolerance < y' ->
  Forall (row_ok tolerance) (flush_row rows current_row) /\
  StronglySorted row_above (flush_row rows current_row) /\
  rows_below (flush_row rows current_row) y'.
Proof.
  intros Hok Hasc Hbelow Hcur Hy'.
  destruct current_row as [| c current_row].
  - simpl. repeat split; try assumption.
    intros row a Hr Ha. specialize (Hbelow row a Hr Ha). lia.
  - change (flush_row rows (c :: current_row))
      with (rows ++ [sort_by w_x (c :: current_row)]).
    set (cur := c :: current_row) in *.
    assert (Hin : forall a, In a (sort_by w_x cur) -> In a cur)
      by (intros a; apply sort_by_in).
    repeat split.
    + apply Forall_app. split; [exact Hok |]. constructor; [| constructor].
      repeat split.
      * apply sort_by_nonempty. discriminate.
      * intros a b Ha Hb. apply Hin, Hcur in Ha. apply Hin, Hcur in Hb. lia.
      * apply sort_by_sorted.
    + apply strongly_sorted_snoc; [exact Hasc |].
      apply Forall_forall. intros row Hr a b Ha Hb.
      specialize (Hbelow row a Hr Ha). apply Hin, Hcur in Hb. lia.
    + intros row a Hr Ha. apply in_app_or in Hr. destruct Hr as [Hr | [<- | []]].
      * specialize (Hbelow row a Hr Ha). lia.
      * apply Hin, Hcur in Ha. lia.
Qed.

Lemma group_loop_ok (words : list word) :
  forall (rows : list (list word)) (current_row : list word) (current_y : Z),
    StronglySorted (key_le w_y) words ->
    (forall d, In d words -> current_y <= w_y d) ->
    current_row <> [] ->
    (forall a, In a current_row -> current_y <= w_y a <= current_y + tolerance) ->
    Forall (row_ok tolerance) rows -> StronglySorted row_above rows ->
    rows_below rows current_y ->
    Forall (row_ok tolerance) (group_loop tolerance words rows current_row current_y) /\
    StronglySorted row_above (group_loop tolerance words rows current_row current_y).
Proof.
  induction words as [| w words IH];
    intros rows current_row current_y Hs Hge Hne Hcur Hok Hasc Hbelow; simpl.
  - destruct (flush_row_ok rows current_row current_y (current_y + tolerance + 1))
      as (H1 & H2 & _); auto; lia.
  - inversion Hs as [| ? ? Hs' Hw]; subst.
    assert (Hwy : current_y <= w_y w) by (apply Hge; now left).
    destruct (Z.leb_spec (Z.abs (w_y w - current_y)) tolerance) as [Hc | Hc].
    + apply IH; auto.
      * intros d Hd. apply Hge. now right.
      * intros E. apply app_eq_nil in E. destruct E; discriminate.
      * intros a Ha. apply in_app_or in Ha. destruct Ha as [Ha | [<- | []]].
        -- now apply Hcur.
        -- lia.
    + destruct (flush_row_ok rows current_row current_y (w_y w))
        as (H1 & H2 & H3); auto; try lia.
      apply IH; auto.
      * intros d Hd. rewrite Forall_forall in Hw. apply (Hw d Hd).
      * discriminate.
      * intros a [<- | []]. lia.
Qed.

Lemma group_words_by_rows_ok (words : list word) :
  Forall (row_ok tolerance) (group_words_by_rows words tolerance) /\
  StronglySorted row_above (group_words_by_rows words tolerance).
Proof.
  unfold group_words_by_rows.
  pose proof (sort_by_sorted _ w_y words) as Hs.
  destruct (sort_by w_y words) as [| w0 rest].
  - split; constructor.
  - inversion Hs as [| ? ? Hs' Hw]; subst.
    apply group_loop_ok; auto.
    + intros d Hd. rewrite Forall_forall in Hw. apply (Hw d Hd).
    + discriminate.
    + intros a [<- | []]. lia.
    + constructor.
    + intros row a [].
Qed.
End Grouping.

Lemma strongly_sorted_impl (A : Type) (R R' : A -> A -> Prop) (l : list A) :
  (forall a b, In a l -> In b l -> R a b -> R' a b) ->
  StronglySorted R l -> StronglySorted R' l.
Proof.
  intros HR Hs. induction Hs as [| a l Hs IH Ha].
  - constructor.
  - constructor.
    + apply IH. intros b c Hb Hc. apply HR; now right.
    + rewrite Forall_forall in *. intros b Hb.
      apply HR; [now left | now right | now apply Ha].
Qed.

(** C6. For every word list, each row emitted by the grouper (with the
    tolerance 10 it is called with) starts with a word from whose
    vertical position no member of the row differs by more than 10; the
    rows come in strictly ascending order of their first word's vertical
    position; and each row is in ascending order of horizontal
    position. *)
Theorem rows_are_tolerant_and_ordered (words : list word) :
  let rows := group_words_by_rows words default_tolerance in
  (forall row, In row rows ->
     exists first rest,
       row = first :: rest /\
       forall d, In d row -> Z.abs (w_y d - w_y first) <= 10) /\
  StronglySorted first_word_above rows /\
  (forall row, In row rows -> StronglySorted (fun a b => w_x a <= w_x b) row).
Proof.
  intros rows.
  assert (H10 : 0 <= default_tolerance) by (unfold default_tolerance; lia).
  destruct (group_words_by_rows_ok default_tolerance H10 words) as [Hok Hasc].
  fold rows in Hok, Hasc. rewrite Forall_forall in Hok.
  repeat split.
  - intros row Hr. destruct (Hok row Hr) as (Hne & Hy & _).
    destruct row as [| first rest]; [congruence |].
    exists first, rest. split; [reflexivity |].
    intros d Hd. apply Hy; [exact Hd | now left].
  - apply (strongly_sorted_impl _ (row_above) first_word_above rows); [| exact Hasc].
    intros r1 r2 _ _ Hab a b Ha Hb. apply Hab.
    + destruct r1; inversion Ha. now left.
    + destruct r2; inversion Hb. now left.
  - intros row Hr. destruct (Hok row Hr) as (_ & _ & Hx). exact Hx.
Qed.

Lemma flush_row_perm (rows : list (list word)) (current_row : list word) :
  Permutation (List.concat (flush_row rows current_row)) (List.concat rows ++ current_row).
Proof.
  destruct current_row as [| c current_row].
  - simpl. rewrite app_nil_r. apply Permutation_refl.
  - change (flush_row rows (c :: current_row))
      with (rows ++ [sort_by w_x (c :: current_row)]).
    rewrite concat_app. apply Permutation_app_head.
    cbn [List.concat]. rewrite app_nil_r. apply sort_by_perm.
Qed.

Lemma group_loop_perm (tolerance : Z) (words : list word) :
  forall (rows : list (list word)) (current_row : list word) (current_y : Z),
    Permutation (List.concat (group_loop tolerance words rows current_row current_y))
                (List.concat rows ++ current_row ++ words).
Proof.
  induction words as [| w words IH]; intros rows current_row current_y; simpl.
  - rewrite app_nil_r. apply flush_row_perm.
  - destruct (Z.abs (w_y w - current_y) <=? tolerance).
    + eapply perm_trans; [apply IH |].
      rewrite <- app_assoc. apply Permutation_refl.
    + eapply perm_trans; [apply IH |].
      eapply perm_trans;
        [apply Permutation_app_tail, flush_row_perm |].
      rewrite <- app_assoc. apply Permutation_refl.
Qed.

(** The rows partition the words handed to the grouper. *)
Lemma group_words_by_rows_perm (words : list word) (tolerance : Z) :
  Permutation (List.concat (group_words_by_rows words tolerance)) words.
Proof.
  unfold group_words_by_rows.
  pose proof (sort_by_perm _ w_y words) as Hp.
  destruct (sort_by w_y words) as [| w0 rest].
  - exact Hp.
  - eapply perm_trans; [apply group_loop_perm | exact Hp].
Qed.

Lemma grouped_word_in_input (words : list word) (tolerance : Z)
      (row : list word) (d : word) :
  In row (group_words_by_rows words tolerance) -> In d row -> In d words.
Proof.
  intros Hr Hd.
  apply (Permutation_in _ (group_words_by_rows_perm words tolerance)).
  apply in_concat. exists row. split; assumption.
Qed.

(** ** Word filter *)

Lemma in_table_true (ocr : ocr_data) (region : TableRegion) (i : nat) (w : string) :
  in_table ocr region i w = Ok true ->
  Str.truthy (Str.strip w) = true /\
  exists c, nth_error (conf ocr) i = Some c /\ confidence_threshold < c.
Proof.
  unfold in_table. intros H.
  destruct (Str.truthy (Str.strip w)); [| discriminate].
  split; [reflexivity |].
  inv_bind H as c Hc. apply get_ok in Hc. exists c. split; [exact Hc |].
  destruct (Z.ltb_spec confidence_threshold c); [assumption | discriminate].
Qed.

Lemma word_at_fields (ocr : ocr_data) (i : nat) (w : string) (d : word) :
  word_at ocr i w = Ok d ->
  w_text d = w /\ nth_error (conf ocr) i = Some (w_confidence d).
Proof.
  unfold word_at. intros H.
  inv_bind H as x Hx. inv_bind H as y Hy. inv_bind H as wd Hwd.
  inv_bind H as h Hh. inv_bind H as c Hc.
  inversion H; subst d. simpl. split; [reflexivity | now apply get_ok].
Qed.

Lemma table_words_sound (ocr : ocr_data) (region : TableRegion)
      (words : list string) (i : nat) (tw : list word) :
  table_words ocr region i words = Ok tw ->
  forall d, In d tw ->
    exists k,
      nth_error words k = Some (w_text d) /\
      in_table ocr region (i + k) (w_text d) = Ok true /\
      word_at ocr (i + k) (w_text d) = Ok d.
Proof.
  revert i tw. induction words as [| w words IH]; intros i tw H d Hd; simpl in H.
  - inversion H; subst tw. destruct Hd.
  - inv_bind H as keep Hkeep. destruct keep.
    + inv_bind H as d0 Hd0. inv_bind H as more Hmore. inversion H; subst tw.
      destruct Hd as [<- | Hd].
      * exists 0%nat. rewrite Nat.add_0_r.
        destruct (word_at_fields _ _ _ _ Hd0) as [-> _]. auto.
      * destruct (IH _ _ Hmore _ Hd) as (k & Hk).
        exists (S k). rewrite Nat.add_succ_r. exact Hk.
    + destruct (IH _ _ H _ Hd) as (k & Hk).
      exists (S k). rewrite Nat.add_succ_r. exact Hk.
Qed.

(** On aligned columns the filter never raises. *)
Lemma table_words_defined (ocr : ocr_data) (region : TableRegion) :
  aligned ocr -> exists tw, table_words ocr region 0 (text ocr) = Ok tw.
Proof.
  intros (Ht & Hl & Hw & Hh & Hc).
  assert (Hgen : forall words i,
             (i + List.length words = List.length (text ocr))%nat ->
             exists tw, table_words ocr region i words = Ok tw).
  { induction words as [| w words IH]; intros i Hi; simpl.
    - eexists; reflexivity.
    - simpl in Hi.
      destruct (get_defined _ (top ocr) i) as [t Et]; [lia |].
      destruct (get_defined _ (left ocr) i) as [l El]; [lia |].
      destruct (get_defined _ (width ocr) i) as [wd Ewd]; [lia |].
      destruct (get_defined _ (height ocr) i) as [h Eh]; [lia |].
      destruct (get_defined _ (conf ocr) i) as [c Ec]; [lia |].
      destruct (IH (S i)) as [more Hmore]; [lia |].
      unfold in_table, word_at. rewrite Et, El, Ewd, Eh, Ec, Hmore. simpl.
      destruct (Str.truthy (Str.strip w)); simpl; [| eexists; reflexivity].
      destruct (confidence_threshold <? c); simpl; [| eexists; reflexivity].
      destruct ((region_x region <=? l) && (l <=? region_x region + region_width region));
        simpl; [| eexists; reflexivity].
      destruct ((region_y region <=? t) && (t <=? region_y region + region_height region));
        simpl; eexists; reflexivity. }
  apply Hgen. reflexivity.
Qed.

Lemma table_words_filtered (ocr : ocr_data) (region : TableRegion) (tw : list word) :
  table_words ocr region 0 (text ocr) = Ok tw ->
  forall d, In d tw ->
    Str.strip (w_text d) <> "" /\ 30 < w_confidence d /\
    exists i, nth_error (text ocr) i = Some (w_text d) /\
              nth_error (conf ocr) i = Some (w_confidence d).
Proof.
  intros Htw d Hin.
  destruct (table_words_sound _ _ _ _ _ Htw d Hin) as (i & Hi & Hkeep & Hat).
  simpl in Hkeep, Hat.
  destruct (in_table_true _ _ _ _ Hkeep) as (Hs & c & Hc & Hlt).
  destruct (word_at_fields _ _ _ _ Hat) as [_ Hc'].
  rewrite Hc in Hc'. inversion Hc'; subst c.
  split; [now apply truthy_nonempty |].
  split; [exact Hlt |]. exists i. auto.
Qed.

(** C8. A word that reaches row grouping, and so classification, is a
    word of the raw stream whose stripped text is non-empty and whose
    confidence is strictly above 30; the filter answers [False] for every
    word whose confidence is exactly 30. *)
Theorem only_confident_words_reach_rows
        (ocr : ocr_data) (region : TableRegion) (tw : list word) :
  table_words ocr region 0 (text ocr) = Ok tw ->
  (forall row d,
      In row (group_words_by_rows tw default_tolerance) -> In d row ->
      Str.strip (w_text d) <> "" /\ 30 < w_confidence d /\
      exists i, nth_error (text ocr) i = Some (w_text d) /\
                nth_error (conf ocr) i = Some (w_confidence d)) /\
  (forall i w, nth_error (conf ocr) i = Some 30 -> in_table ocr region i w = Ok false).
Proof.
  intros Htw. split.
  - intros row d Hrow Hd.
    apply (table_words_filtered ocr region tw Htw).
    exact (grouped_word_in_input _ _ _ _ Hrow Hd).
  - intros i w Hc. unfold in_table.
    destruct (Str.truthy (Str.strip w)); [| reflexivity].
    apply get_ok in Hc. rewrite Hc. reflexivity.
Qed.

Lemma only_confident_words_reach_rows_witness :
  (forall row d,
      In row (group_words_by_rows
                [ mkWord "Item" 10 50 30 12 95; mkWord "101" 10 100 30 12 95 ]
                default_tolerance) ->
      In d row ->
      Str.strip (w_text d) <> "" /\ 30 < w_confidence d /\
      exists i, nth_error ["Item"; "faint"; " "; "101"] i = Some (w_text d) /\
                nth_error [95; 30; 95; 95] i = Some (w_confidence d)) /\
  (forall i w, nth_error [95; 30; 95; 95] i = Some 30 ->
               in_table (mkOcr ["Item"; "faint"; " "; "101"] [50; 50; 60; 100]
                               [10; 60; 100; 10] [30; 30; 5; 30] [12; 12; 12; 12]
                               [95; 30; 95; 95])
                        (mkTableRegion 10 50 80 62 (8 # 10)) i w = Ok false).
Proof.
  apply (only_confident_words_reach_rows
           (mkOcr ["Item"; "faint"; " "; "101"] [50; 50; 60; 100]
                  [10; 60; 100; 10] [30; 30; 5; 30] [12; 12; 12; 12] [95; 30; 95; 95])
           (mkTableRegion 10 50 80 62 (8 # 10))).
  reflexivity.
Defined.

(** ** Extraction loop *)

Lemma has_identity_spec (li : LineItem) :
  has_identity li = true <->
  item_number li <> "" \/ description li <> "" \/ quantity li <> "".
Proof.
  unfold has_identity. simpl. rewrite orb_false_r, !orb_true_iff.
  rewrite !truthy_nonempty. tauto.
Qed.

Lemma collect_line_items_spec (rows : list (list word)) (patterns : VendorPattern)
      (items : list LineItem) :
  collect_line_items rows patterns = Ok items ->
  forall li,
    In li items <->
    exists row, In row rows /\
                parse_row_to_line_item row patterns = Ok (Some li) /\
                has_identity li = true.
Proof.
  revert items. induction rows as [| row rows IH]; intros items H li; simpl in H.
  - inversion H; subst items. split; [intros [] | intros (row & [] & _)].
  - inv_bind H as parsed Hparsed. inv_bind H as more Hmore.
    specialize (IH _ Hmore li).
    destruct parsed as [li0 |]; [destruct (has_identity li0) eqn:Hid0 |];
      inversion H; subst items; clear H.
    + split.
      * intros [<- | Hin].
        -- exists row. split; [now left | auto].
        -- apply IH in Hin. destruct Hin as (row' & Hin & Hp). exists row'.
           split; [now right | exact Hp].
      * intros (row' & [<- | Hin] & Hp & Hid).
        -- rewrite Hparsed in Hp. inversion Hp. now left.
        -- right. apply IH. exists row'. auto.
    + rewrite IH. split.
      * intros (row' & Hin & Hp). exists row'. split; [now right | exact Hp].
      * intros (row' & [<- | Hin] & Hp & Hid).
        -- rewrite Hparsed in Hp. inversion Hp; subst li0. congruence.
        -- exists row'. auto.
    + rewrite IH. split.
      * intros (row' & Hin & Hp). exists row'. split; [now right | exact Hp].
      * intros (row' & [<- | Hin] & Hp & Hid).
        -- rewrite Hparsed in Hp. discriminate.
        -- exists row'. auto.
Qed.

Lemma parse_row_fields (row_words : list word) (patterns : VendorPattern)
      (li : LineItem) :
  parse_row_to_line_item row_words patterns = Ok (Some li) ->
  exists li0,
    extract_fields (column_patterns patterns) (row_text row_words) empty_line_item
    = Ok li0 /\
    item_number li = item_number li0 /\ quantity li = quantity li0 /\
    unit_price li = unit_price li0 /\ total_price li = total_price li0 /\
    (confidence li == confidence_of (fields_found li))%Q.
Proof.
  unfold parse_row_to_line_item. intros H.
  destruct (List.length row_words <? 2)%nat; [discriminate |].
  destruct (Str.any_keyword_in header_keywords (row_text row_words)); [discriminate |].
  inv_bind H as li0 Hli0. inv_bind H as ws Hws.
  inversion H; subst li; clear H. exists li0. simpl.
  repeat split; try reflexivity; assumption.
Qed.

Lemma confidence_positive (li : LineItem) :
  unit_price li <> "" \/ total_price li <> "" ->
  (0 < confidence_of (fields_found li))%Q.
Proof.
  intros H. unfold confidence_of. apply Q.min_glb_lt; [| reflexivity].
  assert (Hn : (1 <= fields_found li)%nat).
  { unfold fields_found. simpl.
    destruct H as [H | H]; apply truthy_nonempty in H; rewrite H;
      destruct (Str.truthy (item_number li)), (Str.truthy (description li)),
        (Str.truthy (quantity li));
      try destruct (Str.truthy (unit_price li));
      try destruct (Str.truthy (total_price li)); simpl; lia. }
  unfold Qlt. simpl. lia.
Qed.

(** C9. The extraction loop returns exactly the line items produced by
    classifying one of its rows that carry an item number, a description
    or a quantity.  A line item with none of the three is left out, also
    when a price was found for it, in which case its confidence is
    positive. *)
Theorem line_items_need_identity
        (rows : list (list word)) (patterns : VendorPattern) (items : list LineItem) :
  collect_line_items rows patterns = Ok items ->
  (forall li,
      In li items <->
      exists row, In row rows /\
                  parse_row_to_line_item row patterns = Ok (Some li) /\
                  (item_number li <> "" \/ description li <> "" \/ quantity li <> "")) /\
  (forall row li,
      In row rows -> parse_row_to_line_item row patterns = Ok (Some li) ->
      item_number li = "" -> description li = "" -> quantity li = "" ->
      ~ In li items /\
      (unit_price li <> "" \/ total_price li <> "" -> (0 < confidence li)%Q)).
Proof.
  intros H. pose proof (collect_line_items_spec _ _ _ H) as Hspec. split.
  - intros li. rewrite Hspec. split; intros (row & Hin & Hp & Hid); exists row;
      repeat split; try assumption; now apply has_identity_spec.
  - intros row li Hin Hp Hi Hd Hq. split.
    + intros Hli. apply Hspec in Hli. destruct Hli as (_ & _ & _ & Hid).
      apply has_identity_spec in Hid. tauto.
    + intros Hprice.
      destruct (parse_row_fields _ _ _ Hp) as (li0 & _ & _ & _ & _ & _ & Hc).
      rewrite Hc. now apply confidence_positive.
Qed.

Lemma line_items_need_identity_witness :
  (forall li,
      In li [] <->
      exists row, In row [blank_row] /\
                  parse_row_to_line_item row spaces_as_price = Ok (Some li) /\
                  (item_number li <> "" \/ description li <> "" \/ quantity li <> "")) /\
  (forall row li,
      In row [blank_row] ->
      parse_row_to_line_item row spaces_as_price = Ok (Some li) ->
      item_number li = "" -> description li = "" -> quantity li = "" ->
      ~ In li [] /\
      (unit_price li <> "" \/ total_price li <> "" -> (0 < confidence li)%Q)).
Proof.
  apply (line_items_need_identity [blank_row] spaces_as_price []).
  reflexivity.
Defined.

(** The row of two blank words is classified with a price and nothing
    else, at confidence 1/5, and the loop leaves it out. *)
Example blank_row_is_price_only :
  parse_row_to_line_item blank_row spaces_as_price
  = Ok (Some (mkLineItem "" "" "" " " "" (Qmin (1 # 5) 1) None)) /\
  collect_line_items [blank_row] spaces_as_price = Ok [].
Proof. split; reflexivity. Qed.

(** ** Row classifier: the patterns as written

    In every pattern of the registry, and in the two patterns of the
    description test, the backslashes are doubled inside raw strings.
    To [re] a doubled backslash is a literal backslash, so [\\d] asks for
    a backslash followed by the letter d, and [\\$?] applies [?] to the
    end-of-text anchor, which [re.compile] rejects. *)

Example item_number_pattern_as_compiled :
  Re.compile "\\b\\d{3,6}\\b"
  = Ok [Re.One (Re.Lit "\"); Re.One (Re.Lit "b"); Re.One (Re.Lit "\");
        Re.Repeat 3 (Some 6%nat) (Re.Lit "d"); Re.One (Re.Lit "\");
        Re.One (Re.Lit "b")].
Proof. reflexivity. Qed.

(** Sample runs of the matcher: greedy repeats that give characters
    back, braces that are literals, negated classes, word boundaries, the
    case flag, and the errors of [re.compile]. *)
Example matcher_samples :
  Re.findall "a+b?" "aaa ab xxxy xx{ x{} -a]-" false = Ok ["aaa"; "ab"; "a"] /\
  Re.findall "x{,2}y" "aaa ab xxxy xx{ x{} -a]-" false = Ok ["xxy"] /\
  Re.findall "x{" "aaa ab xxxy xx{ x{} -a]-" false = Ok ["x{"; "x{"] /\
  Re.findall "[^a-c]+" "ab_c d1" false = Ok ["_"; " d1"] /\
  Re.findall "\w+" "ab_c d1" false = Ok ["ab_c"; "d1"] /\
  Re.findall "\B\d" "101 WidgetA 2 5.00 10.00" false = Ok ["0"; "1"; "0"; "0"; "0"] /\
  Re.findall "[0-9]{2}\b" "101 WidgetA 2 5.00 10.00" false = Ok ["01"; "00"; "10"; "00"] /\
  Re.findall "[a-z]+" "3 Widget $10.00 $30.00" true = Ok ["Widget"] /\
  Re.findall "[a-z]+" "3 Widget $10.00 $30.00" false = Ok ["idget"] /\
  Re.findall "a**" "" false = Raise (ReError "multiple repeat" 2) /\
  Re.findall "a{3,2}" "" false
  = Raise (ReError "min repeat greater than max repeat" 2).
Proof. repeat split; reflexivity. Qed.

(** What the quantity pattern as written does match: a backslash, a
    letter b, a backslash, one to four letters d, a backslash, a letter
    b. *)
Example quantity_pattern_as_written :
  Re.findall "\\b\\d{1,4}\\b" "x \b\dd\b \B\DDDD\B" true
  = Ok ["\b\dd\b"; "\B\DDDD\B"] /\
  Re.findall "\\b\\d{1,4}\\b" "101 WidgetA 2 5.00 10.00" true = Ok [].
Proof. split; reflexivity. Qed.

Lemma price_pattern_does_not_compile :
  Re.compile "\\$?\\d+\\.\\d{2}" = Raise (ReError "nothing to repeat" 3).
Proof. reflexivity. Qed.

Lemma price_like_does_not_compile :
  Re.compile price_like = Raise (ReError "nothing to repeat" 4).
Proof. reflexivity. Qed.

(** With single backslashes the same patterns compile and find the
    numbers and prices of a row. *)
Example single_backslash_patterns :
  Re.findall "\$?\d+\.\d{2}" "3 Widget $10.00 $30.00" true = Ok ["$10.00"; "$30.00"] /\
  Re.findall "\b\d{1,4}\b" "101 WidgetA 2 5.00 10.00" true
  = Ok ["101"; "2"; "5"; "00"; "10"; "00"] /\
  Re.findall "\b[A-Z0-9-]{3,10}\b" "101 WidgetA 2 5.00 10.00" true
  = Ok ["101"; "WidgetA"] /\
  Re.matches "^\$?\d+\.?\d*$" "5.00" = Ok true /\
  Re.matches "^\d{1,4}$" "WidgetA" = Ok false.
Proof. repeat split; reflexivity. Qed.

Lemma is_description_word_raises (t : string) :
  Str.truthy t = true ->
  is_description_word t = Raise (ReError "nothing to repeat" 4).
Proof.
  intros Ht. unfold is_description_word, Re.matches.
  rewrite Ht, price_like_does_not_compile. reflexivity.
Qed.

Lemma description_words_blank (row_words : list word) (ws : list string) :
  description_words row_words = Ok ws ->
  Forall (fun d => Str.strip (w_text d) = "") row_words.
Proof.
  revert ws. induction row_words as [| d row_words IH]; intros ws H; simpl in H.
  - constructor.
  - destruct (Str.truthy (Str.strip (w_text d))) eqn:Ht.
    + rewrite (is_description_word_raises _ Ht) in H. discriminate.
    + inv_bind H as keep Hkeep. inv_bind H as more Hmore.
      constructor; [| now apply (IH more)].
      destruct (Str.strip (w_text d)); [reflexivity | discriminate].
Qed.

(** Whatever the vendor pattern, a row that is classified into a line
    item consists of blank words only. *)
Lemma classified_row_is_blank (row_words : list word) (patterns : VendorPattern)
      (li : LineItem) :
  parse_row_to_line_item row_words patterns = Ok (Some li) ->
  (2 <= List.length row_words)%nat /\
  Forall (fun d => Str.strip (w_text d) = "") row_words.
Proof.
  unfold parse_row_to_line_item. intros H.
  destruct (Nat.ltb_spec (List.length row_words) 2); [discriminate |].
  destruct (Str.any_keyword_in header_keywords (row_text row_words)); [discriminate |].
  inv_bind H as li0 Hli0. inv_bind H as ws Hws.
  split; [assumption | now apply (description_words_blank _ ws)].
Qed.

(** The word filter admits no blank word, so the extraction never returns
    a line item: it returns the empty list or raises. *)
Lemma extraction_never_yields_a_line_item
      (vendor_patterns : list (string * VendorPattern)) (ocr : ocr_data)
      (table_region : option TableRegion) (vendor_type : string)
      (items : list LineItem) :
  extract_line_items_from_region vendor_patterns ocr table_region vendor_type
  = Ok items ->
  items = [].
Proof.
  unfold extract_line_items_from_region. intros H.
  destruct table_region as [region |]; [| now inversion H].
  inv_bind H as patterns Hpatterns. inv_bind H as tw Htw.
  destruct items as [| li items]; [reflexivity | exfalso].
  destruct (proj1 (collect_line_items_spec _ _ _ H li)) as (row & Hrow & Hp & _);
    [now left |].
  destruct (classified_row_is_blank _ _ _ Hp) as [Hlen Hblank].
  destruct row as [| d row]; [simpl in Hlen; lia |].
  inversion Hblank as [| ? ? Hd _]; subst.
  destruct (table_words_filtered ocr region tw Htw d) as [Hne _];
    [| contradiction].
  apply (grouped_word_in_input _ _ _ _ Hrow). now left.
Qed.

(** ** The reference scenario *)

(** C1. On the reference word list and the generic vendor pattern the
    detector returns the region (10, 50, 330, 100) and the grouper the
    three rows header, data and "Subtotal"; the header row is rejected;
    classifying the data row raises [re.error] ("nothing to repeat at
    position 3") when the unit-price pattern is compiled, and the
    pipeline ends with that exception instead of a result holding one
    line item. *)
Theorem reference_scenario_raises (full_text : string) :
  detect_table_region load_vendor_patterns reference_ocr "generic"
  = Ok (Some reference_region) /\
  (tw <- table_words reference_ocr reference_region 0 (text reference_ocr) ;;
   Ok (map (map w_text) (group_words_by_rows tw default_tolerance)))
  = Ok [ ["Item"; "Description"; "Qty"; "Price"; "Total"];
         ["101"; "WidgetA"; "2"; "5.00"; "10.00"];
         ["Subtotal"] ] /\
  parse_row_to_line_item
    [ mkWord "101" 10 100 30 12 95; mkWord "WidgetA" 60 100 60 12 95;
      mkWord "2" 200 100 10 12 95; mkWord "5.00" 250 100 35 12 95;
      mkWord "10.00" 300 100 40 12 95 ] generic
  = Raise (ReError "nothing to repeat" 3) /\
  process_invoice_with_dynamic_line_items load_vendor_patterns
    (Extracted full_text reference_ocr) "generic"
  = Raise (ReError "nothing to repeat" 3).
Proof. repeat split; vm_compute; reflexivity. Qed.

(** C3. The row "3 Widget $10.00 $30.00" is not classified: the
    unit-price pattern of the generic vendor does not compile, so
    [re.findall] raises [re.error] ("nothing to repeat at position 3")
    before any price is assigned; the acme vendor fails in the same way,
    and with the techsupply vendor the description test raises. *)
Theorem two_price_row_raises :
  row_text two_price_row = "3 Widget $10.00 $30.00" /\
  Re.findall "\\$?\\d+\\.\\d{2}" (row_text two_price_row) true
  = Raise (ReError "nothing to repeat" 3) /\
  parse_row_to_line_item two_price_row generic
  = Raise (ReError "nothing to repeat" 3) /\
  parse_row_to_line_item two_price_row acme
  = Raise (ReError "nothing to repeat" 3) /\
  parse_row_to_line_item two_price_row techsupply
  = Raise (ReError "nothing to repeat" 4).
Proof. repeat split; vm_compute; reflexivity. Qed.

(** X13. The pipeline never reports a line item: a successful result has an
    empty list of line items and a count of zero. *)
Lemma pipeline_never_reports_a_line_item
      (vendor_patterns : list (string * VendorPattern)) (extraction : extraction_result)
      (vendor_type v full_text method : string) (r : TableRegion) (n : nat)
      (items : list LineItem) :
  process_invoice_with_dynamic_line_items vendor_patterns extraction vendor_type
  = Ok (SuccessResult v r n items full_text method) ->
  items = [] /\ n = 0%nat.
Proof.
  unfold process_invoice_with_dynamic_line_items. intros H.
  destruct extraction as [e | ft ocr]; [discriminate |].
  inv_bind H as region Hregion. destruct region as [region |]; [| discriminate].
  inv_bind H as line_items Hitems. inversion H; subst.
  apply extraction_never_yields_a_line_item in Hitems. subst items.
  split; reflexivity.
Qed.

(** Every pattern of the program lies in the modelled fragment of [re]:
    compiling it gives a pattern or one of the errors of [re.compile]. *)
Example patterns_in_fragment :
  Forall (fun source => Re.compile source <> Raise ReOutsideFragment)
         (price_like :: number_like ::
          flat_map (fun v => map snd (column_patterns (snd v))) load_vendor_patterns).
Proof. repeat constructor; discriminate. Qed.

(** The field loop on the two-price row with the price patterns written
    with single backslashes: first match as unit price, last match as
    total, currency symbol removed. *)
Example field_loop_with_single_backslashes :
  extract_fields [("unit_price", "\$?\d+\.\d{2}"); ("total_price", "\$?\d+\.\d{2}")]
                 (row_text two_price_row) empty_line_item
  = Ok (mkLineItem "" "" "" "10.00" "30.00" 0 None).
Proof. reflexivity. Qed.

(** * Further properties *)

(** ** Patterns that cannot match *)

Lemma never_matches_cons (ignorecase : bool) (it : Re.item) (p : Re.pattern) :
  never_matches ignorecase p -> never_matches ignorecase (it :: p).
Proof.
  intros H prev s. destruct it as [a | k | lo hi a]; cbn [Re.match_here].
  - destruct s as [| c s]; [reflexivity |].
    destruct (Re.atom_matches ignorecase a c); [| reflexivity].
    now rewrite H.
  - destruct (Re.anchor_holds k prev s); [apply H | reflexivity].
  - generalize 0%nat as count. revert prev.
    induction s as [| c s IH]; intros prev count.
    + rewrite H. now destruct (lo <=? count)%nat.
    + rewrite IH, H.
      destruct (Re.under count hi && Re.atom_matches ignorecase a c);
        now destruct (lo <=? count)%nat.
Qed.

Lemma at_end_cases (prev : option ascii) (s : list ascii) :
  Re.anchor_holds Re.AtEnd prev s = true -> s = [] \/ s = ["010"%char].
Proof.
  destruct s as [| c [| c' s]]; simpl; intros H.
  - now left.
  - right. destruct c as [[] [] [] [] [] [] [] []]; try discriminate. reflexivity.
  - destruct c as [[] [] [] [] [] [] [] []]; discriminate.
Qed.

(** The end-of-text anchor followed by a literal backslash: nothing but
    a final newline can follow the end of the text. *)
Lemma end_then_backslash_never_matches (ignorecase : bool) (p : Re.pattern) :
  never_matches ignorecase (Re.At Re.AtEnd :: Re.One (Re.Lit "\") :: p).
Proof.
  intros prev s. cbn [Re.match_here].
  destruct (Re.anchor_holds Re.AtEnd prev s) eqn:E; [| reflexivity].
  destruct (at_end_cases _ _ E) as [-> | ->]; [reflexivity |].
  destruct ignorecase; reflexivity.
Qed.

Lemma scan_never_matches (ignorecase : bool) (p : Re.pattern) :
  never_matches ignorecase p ->
  forall skip prev s, Re.scan ignorecase p skip prev s = [].
Proof.
  intros H skip prev s. revert skip prev.
  induction s as [| c s IH]; intros skip prev; cbn [Re.scan].
  - destruct skip; [rewrite H |]; reflexivity.
  - destruct skip; [rewrite H |]; apply IH.
Qed.

Lemma findall_compiled (source text : string) (ignorecase : bool) (p : Re.pattern) :
  Re.compile source = Ok p ->
  Re.findall source text ignorecase
  = Ok (Re.scan ignorecase p 0 None (Str.chars text)).
Proof. intros E. unfold Re.findall. now rewrite E. Qed.

Lemma findall_not_compiled (source text : string) (ignorecase : bool) (e : exn) :
  Re.compile source = Raise e -> Re.findall source text ignorecase = Raise e.
Proof. intros E. unfold Re.findall. now rewrite E. Qed.

(** The price pattern of the techsupply vendor, as written, asks for a
    backslash after the end of the text. *)
Lemma techsupply_price_compiled :
  Re.compile "\\$\\d+\\.\\d{2}"
  = Ok [Re.One (Re.Lit "\"); Re.At Re.AtEnd; Re.One (Re.Lit "\");
        Re.Repeat 1 None (Re.Lit "d"); Re.One (Re.Lit "\"); Re.One Re.AnyChar;
        Re.One (Re.Lit "\"); Re.Repeat 2 (Some 2%nat) (Re.Lit "d")].
Proof. reflexivity. Qed.

Lemma techsupply_price_never_found (text : string) :
  Re.findall "\\$\\d+\\.\\d{2}" text true = Ok [].
Proof.
  rewrite (findall_compiled _ _ _ _ techsupply_price_compiled).
  rewrite scan_never_matches; [reflexivity |].
  apply never_matches_cons, end_then_backslash_never_matches.
Qed.

(** ** Row classifier with the registry's patterns *)

Lemma findall_defined (source text : string) (ignorecase : bool) :
  (exists p, Re.compile source = Ok p) ->
  exists ms, Re.findall source text ignorecase = Ok ms.
Proof.
  intros [p E]. rewrite (findall_compiled _ _ _ _ E). eexists; reflexivity.
Qed.

Lemma assign_field_prices (li : LineItem) (field : string) (matches : list string) :
  field <> "unit_price" -> field <> "total_price" ->
  unit_price (assign_field li field matches) = unit_price li /\
  total_price (assign_field li field matches) = total_price li.
Proof.
  intros Hu Ht. unfold assign_field.
  destruct matches as [| m ms]; [split; reflexivity |].
  destruct (String.eqb_spec field "item_number"); [split; reflexivity |].
  destruct (String.eqb_spec field "quantity"); [split; reflexivity |].
  destruct (String.eqb_spec field "unit_price"); [contradiction |].
  destruct (String.eqb_spec field "total_price"); [contradiction |].
  split; reflexivity.
Qed.

Ltac findall_ok ms E :=
  match goal with
  | |- context [Re.findall ?src ?t ?ic] =>
      destruct (findall_defined src t ic) as [ms E];
      [eexists; reflexivity | rewrite E; cbn [bind]]
  end.

Lemma techsupply_fields_keep_prices (row_text : string) (li : LineItem) :
  exists li',
    extract_fields (column_patterns techsupply) row_text li = Ok li' /\
    unit_price li' = unit_price li /\ total_price li' = total_price li.
Proof.
  unfold techsupply. cbn [column_patterns extract_fields].
  findall_ok ms1 E1. findall_ok ms2 E2. findall_ok ms3 E3.
  rewrite !techsupply_price_never_found. cbn [bind assign_field].
  eexists. split; [reflexivity |].
  destruct (assign_field_prices li "item_number" ms1) as [U1 T1]; try discriminate.
  destruct (assign_field_prices (assign_field li "item_number" ms1) "description" ms2)
    as [U2 T2]; try discriminate.
  destruct (assign_field_prices
              (assign_field (assign_field li "item_number" ms1) "description" ms2)
              "quantity" ms3) as [U3 T3]; try discriminate.
  split; congruence.
Qed.

Lemma extract_fields_raises (columns : list (string * string)) (row_text : string)
      (li : LineItem) (pos : nat) :
  (exists before field source after,
      columns = before ++ (field, source) :: after /\
      Forall (fun c => exists p, Re.compile (snd c) = Ok p) before /\
      Re.compile source = Raise (ReError "nothing to repeat" pos)) ->
  extract_fields columns row_text li = Raise (ReError "nothing to repeat" pos).
Proof.
  intros (before & field & source & after & -> & Hb & Hs).
  revert li. induction Hb as [| [f src] before Hc _ IH]; intros li; simpl.
  - now rewrite (findall_not_compiled _ _ _ _ Hs).
  - destruct (findall_defined src row_text true Hc) as [ms E].
    rewrite E. simpl. apply IH.
Qed.

Lemma generic_fields_raise (row_text : string) (li : LineItem) :
  extract_fields (column_patterns generic) row_text li
  = Raise (ReError "nothing to repeat" 3).
Proof.
  apply extract_fields_raises.
  exists [ ("item_number", "\\b[A-Z0-9-]{3,10}\\b");
           ("description", "[A-Za-z][A-Za-z\\s-]{5,50}");
           ("quantity", "\\b\\d{1,4}\\b") ],
         "unit_price", "\\$?\\d+\\.\\d{2}",
         [ ("total_price", "\\$?\\d+\\.\\d{2}") ].
  split; [reflexivity |]. split; [| reflexivity].
  repeat constructor; eexists; reflexivity.
Qed.

Lemma acme_fields_raise (row_text : string) (li : LineItem) :
  extract_fields (column_patterns acme) row_text li
  = Raise (ReError "nothing to repeat" 3).
Proof.
  apply extract_fields_raises.
  exists [ ("item_number", "\\b\\d{3,6}\\b");
           ("description", "[A-Za-z][A-Za-z\\s-]{5,50}");
           ("quantity", "\\b\\d{1,3}\\b") ],
         "unit_price", "\\$?\\d+\\.\\d{2}",
         [ ("total_price", "\\$?\\d+\\.\\d{2}") ].
  split; [reflexivity |]. split; [| reflexivity].
  repeat constructor; eexists; reflexivity.
Qed.

Lemma description_words_raise (row_words : list word) :
  Exists non_blank row_words ->
  description_words row_words = Raise (ReError "nothing to repeat" 4).
Proof.
  induction row_words as [| d row_words IH]; intros H.
  - inversion H.
  - cbn [description_words].
    destruct (Str.truthy (Str.strip (w_text d))) eqn:Ht.
    + now rewrite (is_description_word_raises _ Ht).
    + unfold is_description_word. rewrite Ht. cbn [bind].
      inversion H as [? ? Hd | ? ? Hr]; subst.
      * apply truthy_nonempty in Hd. congruence.
      * now rewrite (IH Hr).
Qed.

Lemma registry_cases (vendor_type : string) (patterns : VendorPattern) :
  lookup_vendor load_vendor_patterns vendor_type = Ok patterns ->
  patterns = acme \/ patterns = techsupply \/ patterns = generic.
Proof.
  unfold load_vendor_patterns. cbn [lookup_vendor].
  destruct (String.eqb "acme" vendor_type); [intros H; inversion H; auto |].
  destruct (String.eqb "techsupply" vendor_type); [intros H; inversion H; auto |].
  destruct (String.eqb "generic" vendor_type); [intros H; inversion H; auto |].
  discriminate.
Qed.

Lemma registered_row_raises
      (vendor_type : string) (patterns : VendorPattern) (row_words : list word) :
  lookup_vendor load_vendor_patterns vendor_type = Ok patterns ->
  (2 <= List.length row_words)%nat ->
  Str.any_keyword_in header_keywords (row_text row_words) = false ->
  Exists non_blank row_words ->
  exists pos,
    parse_row_to_line_item row_words patterns
    = Raise (ReError "nothing to repeat" pos).
Proof.
  intros Hl Hlen Hk Hnb. unfold parse_row_to_line_item.
  destruct (Nat.ltb_spec (List.length row_words) 2); [lia |].
  rewrite Hk.
  destruct (registry_cases _ _ Hl) as [-> | [-> | ->]].
  - exists 3%nat. now rewrite acme_fields_raise.
  - exists 4%nat.
    destruct (techsupply_fields_keep_prices (row_text row_words) empty_line_item)
      as (li' & E & _).
    rewrite E. cbn [bind]. now rewrite (description_words_raise _ Hnb).
  - exists 3%nat. now rewrite generic_fields_raise.
Qed.

(** ** Row grouper: partition, separation and the fixed anchor *)

Lemma strongly_sorted_related (A : Type) (R : A -> A -> Prop) (l : list A) :
  StronglySorted R l ->
  forall x y, In x l -> In y l -> x = y \/ R x y \/ R y x.
Proof.
  induction 1 as [| a l Hs IH Ha]; intros x y Hx Hy.
  - destruct Hx.
  - rewrite Forall_forall in Ha.
    destruct Hx as [<- | Hx], Hy as [<- | Hy]; auto.
Qed.

Section FixedAnchor.
Variable tolerance : Z.
Hypothesis tolerance_nonneg : 0 <= tolerance.


End FixedAnchor.

(** X1. The rows are a partition of the words handed to the grouper: put end
    to end they are a rearrangement of the input, with no word lost and
    none repeated. *)
Theorem rows_partition_the_words (words : list word) (tolerance : Z) :
  Permutation (List.concat (group_words_by_rows words tolerance)) words.
Proof. apply group_words_by_rows_perm. Qed.

(** X2. For a non-negative tolerance, no row is empty, any two words of one
    row are at most [tolerance] apart vertically, and every word of an
    earlier row lies strictly above every word of a later row. *)
Theorem rows_are_separated (words : list word) (tolerance : Z) :
  0 <= tolerance ->
  Forall (fun row =>
            row <> [] /\
            forall a b, In a row -> In b row -> Z.abs (w_y a - w_y b) <= tolerance)
         (group_words_by_rows words tolerance) /\
  StronglySorted row_above (group_words_by_rows words tolerance).
Proof.
  intros Ht. destruct (group_words_by_rows_ok tolerance Ht words) as [Hok Hasc].
  split; [| exact Hasc].
  eapply Forall_impl; [| exact Hok].
  intros row (Hne & Hy & _). split; assumption.
Qed.

Lemma rows_are_separated_witness :
  Forall (fun row =>
            row <> [] /\
            forall a b, In a row -> In b row -> Z.abs (w_y a - w_y b) <= 10)
         (group_words_by_rows two_price_row 10) /\
  StronglySorted row_above (group_words_by_rows two_price_row 10).
Proof. apply (rows_are_separated two_price_row 10). lia. Defined.



(** X4. For a non-negative tolerance, two words of the input with the same
    vertical position always land in the same row. *)
Theorem same_line_same_row (words : list word) (tolerance : Z) (a b : word) :
  0 <= tolerance ->
  In a words -> In b words -> w_y a = w_y b ->
  exists row,
    In row (group_words_by_rows words tolerance) /\ In a row /\ In b row.
Proof.
  intros Ht Ha Hb Hy.
  pose proof (group_words_by_rows_perm words tolerance) as Hp.
  apply (Permutation_in _ (Permutation_sym Hp)) in Ha, Hb.
  apply in_concat in Ha, Hb.
  destruct Ha as (ra & Hra & Ha), Hb as (rb & Hrb & Hb).
  destruct (group_words_by_rows_ok tolerance Ht words) as [_ Hasc].
  destruct (strongly_sorted_related _ _ _ Hasc ra rb Hra Hrb) as [E | [H | H]].
  - subst rb. exists ra. auto.
  - specialize (H a b Ha Hb). lia.
  - specialize (H b a Hb Ha). lia.
Qed.

Lemma same_line_same_row_witness :
  exists row,
    In row (group_words_by_rows two_price_row 10) /\
    In (mkWord "3" 10 100 10 12 95) row /\
    In (mkWord "$30.00" 300 100 40 12 95) row.
Proof.
  apply (same_line_same_row two_price_row 10); simpl; auto 6; lia.
Defined.

(** ** Table region detector: when it succeeds and where the band lies *)

Lemma find_table_start_first (keywords : list string) (tops : list Z)
      (words : list string) (i : nat) (s : Z) :
  find_table_start keywords tops i words = Ok (Some s) ->
  exists k w,
    nth_error words k = Some w /\ keyword_hit keywords w = true /\
    nth_error tops (i + k) = Some s /\
    forall j w', (j < k)%nat -> nth_error words j = Some w' ->
                 keyword_hit keywords w' = false.
Proof.
  revert i. induction words as [| w words IH]; intros i H; simpl in H.
  - discriminate.
  - destruct (keyword_hit keywords w) eqn:Hk.
    + inv_bind H as t Ht. inversion H; subst t. apply get_ok in Ht.
      exists 0%nat, w. rewrite Nat.add_0_r. repeat split; auto.
      intros j w' Hj. lia.
    + destruct (IH _ H) as (k & w' & Hw & Hh & Ht & Hfirst).
      exists (S k), w'. rewrite Nat.add_succ_r. repeat split; auto.
      intros j w'' Hj Hw''. destruct j as [| j]; simpl in Hw''.
      * now inversion Hw''; subst.
      * apply (Hfirst j); [lia | exact Hw''].
Qed.

Lemma find_table_start_defined (keywords : list string) (tops : list Z)
      (words : list string) (i : nat) :
  (i + List.length words <= List.length tops)%nat ->
  exists r,
    find_table_start keywords tops i words = Ok r /\
    (r = None <-> existsb (keyword_hit keywords) words = false).
Proof.
  revert i. induction words as [| w words IH]; intros i Hi; simpl in *.
  - exists None. split; [reflexivity | tauto].
  - destruct (keyword_hit keywords w) eqn:Hk; simpl.
    + destruct (get_defined _ tops i) as [t Et]; [lia |].
      rewrite Et. simpl. exists (Some t).
      split; [reflexivity |]. split; discriminate.
    + apply IH. lia.
Qed.

Lemma find_table_end_defined (keywords : list string) (tops : list Z)
      (start : option Z) (words : list string) (i : nat) :
  (i + List.length words <= List.length tops)%nat ->
  exists r, find_table_end keywords tops start i words = Ok r.
Proof.
  revert i. induction words as [| w words IH]; intros i Hi; simpl in *.
  - eexists; reflexivity.
  - destruct (IH (S i)) as [r Hr]; [lia |].
    destruct (keyword_hit keywords w); [| eauto].
    destruct (start_truthy start) as [s |]; [| eauto].
    destruct (get_defined _ tops i) as [t Et]; [lia |].
    rewrite Et. simpl. destruct (s <? t); eauto.
Qed.

Lemma find_table_end_first (keywords : list string) (tops : list Z)
      (start : option Z) (words : list string) (i : nat) (e : Z) :
  find_table_end keywords tops start i words = Ok (Some e) ->
  exists s k w,
    start = Some s /\ s <> 0 /\ s < e /\
    nth_error words k = Some w /\ keyword_hit keywords w = true /\
    nth_error tops (i + k) = Some e /\
    forall j w' t', (j < k)%nat -> nth_error words j = Some w' ->
                    keyword_hit keywords w' = true ->
                    nth_error tops (i + j) = Some t' -> t' <= s.
Proof.
  revert i. induction words as [| w words IH]; intros i H; simpl in H.
  - discriminate.
  - assert (Hrest : find_table_end keywords tops start (S i) words = Ok (Some e) ->
              (keyword_hit keywords w = true ->
               forall s t, start = Some s -> nth_error tops i = Some t -> t <= s) ->
              exists s k w0,
                start = Some s /\ s <> 0 /\ s < e /\
                nth_error (w :: words) k = Some w0 /\ keyword_hit keywords w0 = true /\
                nth_error tops (i + k) = Some e /\
                forall j w' t', (j < k)%nat -> nth_error (w :: words) j = Some w' ->
                                keyword_hit keywords w' = true ->
                                nth_error tops (i + j) = Some t' -> t' <= s).
    { intros Hr Hhead.
      destruct (IH _ Hr) as (s & k & w0 & Hs & Hs0 & Hlt & Hw & Hh & Ht & Hfirst).
      exists s, (S k), w0. rewrite Nat.add_succ_r. repeat split; auto.
      intros j w' t' Hj Hw' Hh' Ht'. destruct j as [| j]; simpl in Hw'.
      - inversion Hw'; subst w'. rewrite Nat.add_0_r in Ht'.
        now apply (Hhead Hh' s t').
      - rewrite Nat.add_succ_r in Ht'. apply (Hfirst j w' t'); auto. lia. }
    destruct (keyword_hit keywords w) eqn:Hk.
    + destruct start as [s |]; simpl in H.
      * destruct (Z.eqb_spec s 0) as [-> | Hs0].
        -- apply Hrest; [exact H |]. intros _ s t Hs. inversion Hs; subst s.
           intros _. rewrite (find_table_end_falsy_start _ _ (Some 0)) in H;
             [discriminate | reflexivity].
        -- inv_bind H as t Ht. apply get_ok in Ht.
           destruct (Z.ltb_spec s t) as [Hlt | Hge].
           ++ inversion H; subst t. exists s, 0%nat, w.
              rewrite Nat.add_0_r. repeat split; auto.
              intros j w' t' Hj. lia.
           ++ apply Hrest; [exact H |].
              intros _ s' t' Hs' Ht'. inversion Hs'; subst s'.
              rewrite Ht in Ht'. inversion Ht'; subst t'. exact Hge.
      * rewrite find_table_end_falsy_start in H; [discriminate | reflexivity].
    + apply Hrest; [exact H |]. discriminate.
Qed.

Lemma existsb_nth (A : Type) (f : A -> bool) (l : list A) (k : nat) (a : A) :
  nth_error l k = Some a -> f a = true -> existsb f l = true.
Proof.
  intros Hk Hf. apply existsb_exists. exists a.
  split; [eapply nth_error_In; eassumption | exact Hf].
Qed.

(** X5. On aligned columns with non-negative heights the detector never
    raises: it returns a region exactly when some non-blank word contains
    a start keyword, and [None] otherwise. *)
Theorem detection_succeeds_iff_start_keyword
        (vendor_patterns : list (string * VendorPattern)) (vendor_type : string)
        (patterns : VendorPattern) (ocr : ocr_data) :
  lookup_vendor vendor_patterns vendor_type = Ok patterns ->
  aligned ocr ->
  Forall (fun h => 0 <= h) (height ocr) ->
  (existsb (keyword_hit (table_start_keywords patterns)) (text ocr) = true ->
   exists r, detect_table_region vendor_patterns ocr vendor_type = Ok (Some r)) /\
  (existsb (keyword_hit (table_start_keywords patterns)) (text ocr) = false ->
   detect_table_region vendor_patterns ocr vendor_type = Ok None).
Proof.
  intros Hl Hal Hh.
  pose proof Hal as (Htop & _ & _ & Hheight & _).
  destruct (find_table_start_defined (table_start_keywords patterns) (top ocr)
              (text ocr) 0) as (st & Hst & Hnone); [simpl; lia |].
  destruct (find_table_end_defined (table_end_keywords patterns) (top ocr) st
              (text ocr) 0) as (en & Hen); [simpl; lia |].
  split; intros Hex.
  - destruct st as [s |]; [| destruct Hnone as [Hnone _]; rewrite Hnone in Hex;
                             [discriminate | reflexivity]].
    destruct (find_table_start_hit _ _ _ _ _ Hst) as (k & w & Hw & Hk & Ht).
    simpl in Ht. unfold keyword_hit in Hk. apply andb_true_iff in Hk.
    destruct Hk as [Hstrip _].
    assert (Hband : exists e, table_band patterns ocr = Ok (Some (s, e)) /\ s <= e).
    { destruct en as [e |].
      - destruct (find_table_end_first _ _ _ _ _ _ Hen)
          as (s' & _ & _ & Hs' & _ & Hlt & _).
        inversion Hs'; subst s'. exists e. split; [| lia].
        unfold table_band. rewrite Hst. simpl. rewrite Hen. reflexivity.
      - destruct (py_max_defined (top ocr)) as [a Ha].
        { intros E. rewrite E in Ht. destruct k; discriminate. }
        destruct (py_max_defined (height ocr)) as [b Hb].
        { intros E. rewrite E in Hheight. simpl in Hheight.
          assert (k < List.length (text ocr))%nat
            by (apply nth_error_Some; congruence).
          lia. }
        destruct (py_max_spec _ _ Ha) as [_ Hamax].
        destruct (py_max_spec _ _ Hb) as [Hbin _].
        rewrite Forall_forall in Hh.
        specialize (Hamax s (nth_error_In _ _ Ht)). specialize (Hh b Hbin).
        exists (a + b). split; [| lia].
        rewrite (table_band_default_end _ _ _ Hst Hen).
        unfold bottom_of_content. rewrite Ha, Hb. reflexivity. }
    destruct Hband as (e & Hband & Hse).
    destruct (detect_returns_region _ _ _ ocr s e Hl Hal Hband) as (r & Hr & _).
    { exists k, w, s. repeat split; auto; lia. }
    exists r. exact Hr.
  - destruct st as [s |].
    + destruct (find_table_start_hit _ _ _ _ _ Hst) as (k & w & Hw & Hk & _).
      rewrite (existsb_nth _ _ _ _ _ Hw Hk) in Hex. discriminate.
    + unfold detect_table_region, table_band. rewrite Hl. simpl.
      rewrite Hst. simpl. rewrite Hen. reflexivity.
Qed.

Lemma detection_succeeds_iff_start_keyword_witness :
  (existsb (keyword_hit (table_start_keywords generic)) (text reference_ocr) = true ->
   exists r, detect_table_region load_vendor_patterns reference_ocr "generic"
             = Ok (Some r)) /\
  (existsb (keyword_hit (table_start_keywords generic)) (text reference_ocr) = false ->
   detect_table_region load_vendor_patterns reference_ocr "generic" = Ok None).
Proof.
  apply (detection_succeeds_iff_start_keyword load_vendor_patterns "generic" generic).
  - reflexivity.
  - repeat split.
  - simpl. repeat constructor; lia.
Defined.

(** X6. A returned region starts at the top of the first non-blank word that
    contains a start keyword.  It ends either at [max(tops) +
    max(heights)], or, for a start other than 0, at the top of the first
    word that contains an end keyword and lies strictly below the start;
    in that case the height is positive. *)
Theorem band_anchors
        (vendor_patterns : list (string * VendorPattern)) (vendor_type : string)
        (patterns : VendorPattern) (ocr : ocr_data) (r : TableRegion) :
  lookup_vendor vendor_patterns vendor_type = Ok patterns ->
  detect_table_region vendor_patterns ocr vendor_type = Ok (Some r) ->
  (exists k w,
      nth_error (text ocr) k = Some w /\
      keyword_hit (table_start_keywords patterns) w = true /\
      nth_error (top ocr) k = Some (region_y r) /\
      forall j w', (j < k)%nat -> nth_error (text ocr) j = Some w' ->
                   keyword_hit (table_start_keywords patterns) w' = false) /\
  (bottom_of_content ocr = Ok (region_y r + region_height r) \/
   (region_y r <> 0 /\ 0 < region_height r /\
    exists m w,
      nth_error (text ocr) m = Some w /\
      keyword_hit (table_end_keywords patterns) w = true /\
      nth_error (top ocr) m = Some (region_y r + region_height r) /\
      forall j w' t', (j < m)%nat -> nth_error (text ocr) j = Some w' ->
                      keyword_hit (table_end_keywords patterns) w' = true ->
                      nth_error (top ocr) j = Some t' -> t' <= region_y r)).
Proof.
  intros Hl Hd.
  destruct (detect_region_band _ _ _ _ _ Hl Hd) as (ls & rs & Hband & _).
  unfold table_band in Hband.
  inv_bind Hband as st Hst. inv_bind Hband as en Hen.
  destruct st as [s |]; [| discriminate].
  assert (Hs : s = region_y r /\
               (en = None -> bottom_of_content ocr = Ok (region_y r + region_height r)) /\
               (forall e, en = Some e -> e = region_y r + region_height r)).
  { destruct en as [e |].
    - inversion Hband. repeat split; try discriminate. intros e' E. now inversion E.
    - inv_bind Hband as e He. inversion Hband; subst.
      repeat split; try discriminate. intros _. exact He. }
  destruct Hs as (-> & Hdefault & Hfound).
  split.
  - destruct (find_table_start_first _ _ _ _ _ Hst) as (k & w & Hk).
    exists k, w. exact Hk.
  - destruct en as [e |]; [right | left; now apply Hdefault].
    specialize (Hfound e eq_refl). subst e.
    destruct (find_table_end_first _ _ _ _ _ _ Hen)
      as (s & m & w & Hs & Hs0 & Hlt & Hw & Hh & Ht & Hfirst).
    inversion Hs; subst s. repeat split; try assumption; try lia.
    exists m, w. repeat split; assumption.
Qed.

Lemma band_anchors_witness :
  (exists k w,
      nth_error (text reference_ocr) k = Some w /\
      keyword_hit (table_start_keywords generic) w = true /\
      nth_error (top reference_ocr) k = Some (region_y reference_region) /\
      forall j w', (j < k)%nat -> nth_error (text reference_ocr) j = Some w' ->
                   keyword_hit (table_start_keywords generic) w' = false) /\
  (bottom_of_content reference_ocr
   = Ok (region_y reference_region + region_height reference_region) \/
   (region_y reference_region <> 0 /\ 0 < region_height reference_region /\
    exists m w,
      nth_error (text reference_ocr) m = Some w /\
      keyword_hit (table_end_keywords generic) w = true /\
      nth_error (top reference_ocr) m
      = Some (region_y reference_region + region_height reference_region) /\
      forall j w' t', (j < m)%nat -> nth_error (text reference_ocr) j = Some w' ->
                      keyword_hit (table_end_keywords generic) w' = true ->
                      nth_error (top reference_ocr) j = Some t' ->
                      t' <= region_y reference_region)).
Proof.
  apply (band_anchors load_vendor_patterns "generic" generic reference_ocr
                      reference_region); reflexivity.
Defined.

(** ** Word filter on the detected region *)

Lemma band_edges_enclosed
      (vendor_patterns : list (string * VendorPattern)) (vendor_type : string)
      (patterns : VendorPattern) (ocr : ocr_data) (r : TableRegion) (i : nat) :
  lookup_vendor vendor_patterns vendor_type = Ok patterns ->
  detect_table_region vendor_patterns ocr vendor_type = Ok (Some r) ->
  in_band ocr (region_y r) (region_y r + region_height r) i ->
  exists l w,
    nth_error (left ocr) i = Some l /\ nth_error (width ocr) i = Some w /\
    region_x r <= l /\ l + w <= region_x r + region_width r.
Proof.
  intros Hl Hd (w & t & Hw & Ht & Hs & Hb).
  destruct (detect_region_band _ _ _ _ _ Hl Hd) as (ls & rs & _ & Hls & Hrs & Hmin & Hmax).
  destruct (py_min_spec _ _ Hmin) as [_ Hle_min].
  destruct (py_max_spec _ _ Hmax) as [_ Hle_max].
  destruct (band_values_complete _ _ _ _ _ _ _ Hls i w t Hw Ht Hs Hb) as (l & El & Hinl).
  destruct (band_values_complete _ _ _ _ _ _ _ Hrs i w t Hw Ht Hs Hb) as (v & Ev & Hinv).
  simpl in El, Ev. unfold left_edge in El. unfold right_edge in Ev.
  rewrite El in Ev. simpl in Ev.
  destruct (get (width ocr) i) as [wd |] eqn:Ewd; [| discriminate].
  simpl in Ev. inversion Ev; subst v.
  exists l, wd. apply get_ok in El, Ewd.
  repeat split; auto.
Qed.

Lemma in_table_bounds (ocr : ocr_data) (region : TableRegion) (i : nat) (w : string) :
  in_table ocr region i w = Ok true ->
  exists l t,
    nth_error (left ocr) i = Some l /\ nth_error (top ocr) i = Some t /\
    region_x region <= l <= region_x region + region_width region /\
    region_y region <= t <= region_y region + region_height region.
Proof.
  unfold in_table. intros H.
  destruct (Str.truthy (Str.strip w)); [| discriminate].
  inv_bind H as c Hc. destruct (confidence_threshold <? c); [| discriminate].
  inv_bind H as l Hl.
  destruct ((region_x region <=? l) && (l <=? region_x region + region_width region))
    eqn:Hx; [| discriminate].
  inv_bind H as t Ht. inversion H as [Hy].
  apply andb_true_iff in Hx, Hy. destruct Hx as [Hx1 Hx2], Hy as [Hy1 Hy2].
  apply Z.leb_le in Hx1, Hx2, Hy1, Hy2. apply get_ok in Hl, Ht.
  exists l, t. repeat split; assumption.
Qed.

Lemma word_at_position (ocr : ocr_data) (i : nat) (w : string) (d : word) :
  word_at ocr i w = Ok d ->
  nth_error (left ocr) i = Some (w_x d) /\ nth_error (top ocr) i = Some (w_y d).
Proof.
  unfold word_at. intros H.
  inv_bind H as x Hx. inv_bind H as y Hy. inv_bind H as wd Hwd.
  inv_bind H as h Hh. inv_bind H as c Hc.
  inversion H; subst d. simpl. split; now apply get_ok.
Qed.

Lemma table_words_complete (ocr : ocr_data) (region : TableRegion)
      (words : list string) (i : nat) (tw : list word) :
  table_words ocr region i words = Ok tw ->
  forall k w,
    nth_error words k = Some w -> in_table ocr region (i + k) w = Ok true ->
    exists d, word_at ocr (i + k) w = Ok d /\ In d tw.
Proof.
  revert i tw. induction words as [| w0 words IH]; intros i tw H k w Hk Hin;
    simpl in H.
  - destruct k; discriminate.
  - inv_bind H as keep Hkeep. destruct k as [| k]; simpl in Hk.
    + inversion Hk; subst w0. rewrite Nat.add_0_r in Hin. rewrite Hin in Hkeep.
      inversion Hkeep; subst keep.
      inv_bind H as d Hd. inv_bind H as more Hmore. inversion H; subst tw.
      exists d. rewrite Nat.add_0_r. split; [exact Hd | now left].
    + rewrite Nat.add_succ_r in *.
      destruct keep.
      * inv_bind H as d0 Hd0. inv_bind H as more Hmore. inversion H; subst tw.
        destruct (IH _ _ Hmore k w Hk Hin) as (d & Hd & Hdin).
        exists d. split; [exact Hd | now right].
      * apply (IH _ _ H k w Hk Hin).
Qed.

(** X8. Applied to the region the detector returned for the same stream, with
    no negative word width, the filter keeps exactly the non-blank words
    of the band whose confidence exceeds 30: the horizontal test removes
    nothing. *)
Theorem filter_keeps_the_confident_band_words
        (vendor_patterns : list (string * VendorPattern)) (vendor_type : string)
        (patterns : VendorPattern) (ocr : ocr_data) (r : TableRegion)
        (tw : list word) :
  lookup_vendor vendor_patterns vendor_type = Ok patterns ->
  detect_table_region vendor_patterns ocr vendor_type = Ok (Some r) ->
  Forall (fun w => 0 <= w) (width ocr) ->
  table_words ocr r 0 (text ocr) = Ok tw ->
  (forall i w t c,
      nth_error (text ocr) i = Some w -> nth_error (top ocr) i = Some t ->
      nth_error (conf ocr) i = Some c ->
      Str.truthy (Str.strip w) = true ->
      region_y r <= t <= region_y r + region_height r -> 30 < c ->
      exists d, In d tw /\ w_text d = w /\ w_y d = t /\ w_confidence d = c) /\
  (forall d, In d tw ->
      exists i,
        nth_error (text ocr) i = Some (w_text d) /\
        nth_error (top ocr) i = Some (w_y d) /\
        nth_error (conf ocr) i = Some (w_confidence d) /\
        Str.truthy (Str.strip (w_text d)) = true /\
        region_y r <= w_y d <= region_y r + region_height r /\
        30 < w_confidence d).
Proof.
  intros Hl Hd Hwidth Htw. split.
  - intros i w t c Hw Ht Hc Hs Hb Hconf.
    destruct (band_edges_enclosed _ _ _ _ _ i Hl Hd) as (l & wd & El & Ewd & Hx1 & Hx2).
    { exists w, t. auto. }
    rewrite Forall_forall in Hwidth. specialize (Hwidth wd (nth_error_In _ _ Ewd)).
    assert (Hin : in_table ocr r i w = Ok true).
    { unfold in_table. rewrite Hs.
      apply get_ok in Hc, El, Ht. rewrite Hc. simpl.
      unfold confidence_threshold.
      destruct (Z.ltb_spec 30 c); [| lia]. rewrite El. simpl.
      destruct (Z.leb_spec (region_x r) l); [| lia].
      destruct (Z.leb_spec l (region_x r + region_width r)); [| lia].
      simpl. rewrite Ht. simpl.
      destruct (Z.leb_spec (region_y r) t); [| lia].
      destruct (Z.leb_spec t (region_y r + region_height r)); [| lia].
      reflexivity. }
    destruct (table_words_complete _ _ _ _ _ Htw i w Hw Hin) as (d & Hat & Hdin).
    simpl in Hat.
    destruct (word_at_fields _ _ _ _ Hat) as [Htext Hc'].
    destruct (word_at_position _ _ _ _ Hat) as [_ Ht'].
    exists d. repeat split; try assumption; congruence.
  - intros d Hdin.
    destruct (table_words_sound _ _ _ _ _ Htw d Hdin) as (i & Hi & Hkeep & Hat).
    simpl in Hkeep, Hat.
    destruct (in_table_true _ _ _ _ Hkeep) as (Hs & c & Hc & Hlt).
    destruct (in_table_bounds _ _ _ _ Hkeep) as (l & t & _ & Ht & _ & Hy).
    destruct (word_at_fields _ _ _ _ Hat) as [_ Hc'].
    destruct (word_at_position _ _ _ _ Hat) as [_ Ht'].
    rewrite Hc in Hc'. inversion Hc'; subst c.
    rewrite Ht in Ht'. inversion Ht'; subst t.
    exists i. repeat split; try assumption; lia.
Qed.

Lemma filter_keeps_the_confident_band_words_witness :
  (forall i w t c,
      nth_error (text tall_header_ocr) i = Some w ->
      nth_error (top tall_header_ocr) i = Some t ->
      nth_error (conf tall_header_ocr) i = Some c ->
      Str.truthy (Str.strip w) = true ->
      region_y tall_header_region <= t
      <= region_y tall_header_region + region_height tall_header_region ->
      30 < c ->
      exists d, In d tall_header_words /\ w_text d = w /\ w_y d = t /\
                w_confidence d = c) /\
  (forall d, In d tall_header_words ->
      exists i,
        nth_error (text tall_header_ocr) i = Some (w_text d) /\
        nth_error (top tall_header_ocr) i = Some (w_y d) /\
        nth_error (conf tall_header_ocr) i = Some (w_confidence d) /\
        Str.truthy (Str.strip (w_text d)) = true /\
        region_y tall_header_region <= w_y d
        <= region_y tall_header_region + region_height tall_header_region /\
        30 < w_confidence d).
Proof.
  apply (filter_keeps_the_confident_band_words load_vendor_patterns "generic" generic
           tall_header_ocr tall_header_region tall_header_words).
  - reflexivity.
  - reflexivity.
  - simpl. repeat constructor; lia.
  - reflexivity.
Defined.

(** ** Row classifier: what it can return *)

Lemma description_words_empty (row_words : list word) (ws : list string) :
  description_words row_words = Ok ws -> ws = [].
Proof.
  revert ws. induction row_words as [| d row_words IH]; intros ws H; simpl in H.
  - now inversion H.
  - destruct (Str.truthy (Str.strip (w_text d))) eqn:Ht.
    + rewrite (is_description_word_raises _ Ht) in H. discriminate.
    + unfold is_description_word in H. rewrite Ht in H. simpl in H.
      inv_bind H as more Hmore. inversion H; subst ws. now apply IH.
Qed.

Lemma fields_found_le_5 (li : LineItem) : (fields_found li <= 5)%nat.
Proof.
  unfold fields_found. simpl.
  destruct (Str.truthy (item_number li)), (Str.truthy (description li)),
    (Str.truthy (quantity li)), (Str.truthy (unit_price li)),
    (Str.truthy (total_price li)); simpl; lia.
Qed.

Lemma fields_found_without_description (li : LineItem) :
  description li = "" -> (fields_found li <= 4)%nat.
Proof.
  intros Hd. unfold fields_found. simpl. rewrite Hd. simpl.
  destruct (Str.truthy (item_number li)), (Str.truthy (quantity li)),
    (Str.truthy (unit_price li)), (Str.truthy (total_price li)); simpl; lia.
Qed.

(** X9. Whatever the vendor pattern, a row is classified into a line item
    only if it has at least two words and all of them are blank.  The
    line item then has an empty description, and its confidence is the
    number of its non-empty fields divided by five, at most 4/5: the
    classifier never returns the confidence 1.0. *)
Theorem classifier_returns_only_for_blank_rows
        (row_words : list word) (patterns : VendorPattern) (li : LineItem) :
  parse_row_to_line_item row_words patterns = Ok (Some li) ->
  (2 <= List.length row_words)%nat /\
  Forall (fun d => Str.strip (w_text d) = "") row_words /\
  description li = "" /\
  (confidence li == Z.of_nat (fields_found li) # 5)%Q /\
  (confidence li <= 4 # 5)%Q.
Proof.
  intros H. destruct (classified_row_is_blank _ _ _ H) as [Hlen Hblank].
  unfold parse_row_to_line_item in H.
  destruct (List.length row_words <? 2)%nat; [discriminate |].
  destruct (Str.any_keyword_in header_keywords (row_text row_words)); [discriminate |].
  inv_bind H as li0 Hli0. inv_bind H as ws Hws.
  apply description_words_empty in Hws. subst ws.
  inversion H; subst li; clear H. cbn [firstn Str.join].
  set (li1 := set_description li0 "").
  assert (Hd : description li1 = "") by reflexivity.
  pose proof (fields_found_without_description li1 Hd) as H4.
  assert (Hf : fields_found (set_confidence li1 (confidence_of (fields_found li1)))
               = fields_found li1) by reflexivity.
  assert (Hc : (confidence_of (fields_found li1) == Z.of_nat (fields_found li1) # 5)%Q).
  { unfold confidence_of. apply Q.min_l. unfold Qle. simpl. lia. }
  split; [assumption |]. split; [assumption |]. split; [reflexivity |]. split.
  - cbn [confidence set_confidence]. rewrite Hf. exact Hc.
  - cbn [confidence set_confidence]. rewrite Hc. unfold Qle. simpl. lia.
Qed.

Lemma classifier_returns_only_for_blank_rows_witness :
  (2 <= List.length blank_row)%nat /\
  Forall (fun d => Str.strip (w_text d) = "") blank_row /\
  description (mkLineItem "" "" "" " " "" (Qmin (1 # 5) 1) None) = "" /\
  (confidence (mkLineItem "" "" "" " " "" (Qmin (1 # 5) 1) None)
   == Z.of_nat (fields_found (mkLineItem "" "" "" " " "" (Qmin (1 # 5) 1) None)) # 5)%Q /\
  (confidence (mkLineItem "" "" "" " " "" (Qmin (1 # 5) 1) None) <= 4 # 5)%Q.
Proof.
  apply (classifier_returns_only_for_blank_rows blank_row spaces_as_price).
  reflexivity.
Defined.

(** X11. With the techsupply vendor the field loop never raises and never
    assigns a price: both price patterns, as written, ask for a backslash
    after the end of the text, so [unit_price] and [total_price] keep
    the values they had. *)
Theorem techsupply_never_assigns_a_price (row_text : string) (li : LineItem) :
  exists li',
    extract_fields (column_patterns techsupply) row_text li = Ok li' /\
    unit_price li' = unit_price li /\ total_price li' = total_price li.
Proof. apply techsupply_fields_keep_prices. Qed.

(** X10. With any of the three registered vendors, a row of at least two
    words that holds no header keyword and has a non-blank word is never
    classified: the classifier raises [re.error] "nothing to repeat". *)
Theorem registered_vendor_row_raises
        (vendor_type : string) (patterns : VendorPattern) (row_words : list word) :
  lookup_vendor load_vendor_patterns vendor_type = Ok patterns ->
  (2 <= List.length row_words)%nat ->
  Str.any_keyword_in header_keywords (row_text row_words) = false ->
  Exists non_blank row_words ->
  exists pos,
    parse_row_to_line_item row_words patterns
    = Raise (ReError "nothing to repeat" pos).
Proof. apply registered_row_raises. Qed.

Lemma registered_vendor_row_raises_witness :
  exists pos,
    parse_row_to_line_item two_price_row techsupply
    = Raise (ReError "nothing to repeat" pos).
Proof.
  apply (registered_vendor_row_raises "techsupply" techsupply two_price_row).
  - reflexivity.
  - simpl. lia.
  - reflexivity.
  - apply Exists_cons_hd. unfold non_blank. simpl. discriminate.
Defined.

(** ** Vendor lookup and the pipeline *)

Lemma unregistered_vendor (vendor_type : string) :
  vendor_type <> "acme" -> vendor_type <> "techsupply" -> vendor_type <> "generic" ->
  lookup_vendor load_vendor_patterns vendor_type = Raise (KeyError vendor_type).
Proof.
  intros Ha Ht Hg. unfold load_vendor_patterns. cbn [lookup_vendor].
  destruct (String.eqb_spec "acme" vendor_type); [congruence |].
  destruct (String.eqb_spec "techsupply" vendor_type); [congruence |].
  destruct (String.eqb_spec "generic" vendor_type); [congruence |].
  reflexivity.
Qed.

(** X15. For a vendor type other than the three registered ones, the
    detector, the extraction on a region and the pipeline on recognized
    text raise [KeyError] before any word is read.  Two paths come before
    the lookup: extraction without a region returns the empty list, and
    a failed recognition is passed through as the pipeline's result. *)
Theorem unknown_vendor_raises_key_error
        (vendor_type full_text : string) (ocr : ocr_data) (region : TableRegion) :
  vendor_type <> "acme" -> vendor_type <> "techsupply" -> vendor_type <> "generic" ->
  detect_table_region load_vendor_patterns ocr vendor_type
  = Raise (KeyError vendor_type) /\
  extract_line_items_from_region load_vendor_patterns ocr (Some region) vendor_type
  = Raise (KeyError vendor_type) /\
  extract_line_items_from_region load_vendor_patterns ocr None vendor_type = Ok [] /\
  process_invoice_with_dynamic_line_items load_vendor_patterns
    (Extracted full_text ocr) vendor_type = Raise (KeyError vendor_type) /\
  forall e,
    process_invoice_with_dynamic_line_items load_vendor_patterns
      (ExtractionError e) vendor_type = Ok (ErrorResult e).
Proof.
  intros Ha Ht Hg. pose proof (unregistered_vendor _ Ha Ht Hg) as Hl.
  unfold process_invoice_with_dynamic_line_items, detect_table_region,
    extract_line_items_from_region.
  rewrite Hl. repeat split.
Qed.

Lemma unknown_vendor_raises_key_error_witness :
  detect_table_region load_vendor_patterns reference_ocr "nobody"
  = Raise (KeyError "nobody") /\
  extract_line_items_from_region load_vendor_patterns reference_ocr
    (Some reference_region) "nobody" = Raise (KeyError "nobody") /\
  extract_line_items_from_region load_vendor_patterns reference_ocr None "nobody"
  = Ok [] /\
  process_invoice_with_dynamic_line_items load_vendor_patterns
    (Extracted "" reference_ocr) "nobody" = Raise (KeyError "nobody") /\
  forall e,
    process_invoice_with_dynamic_line_items load_vendor_patterns
      (ExtractionError e) "nobody" = Ok (ErrorResult e).
Proof.
  apply (unknown_vendor_raises_key_error "nobody" "" reference_ocr reference_region);
    discriminate.
Defined.




Lemma pipeline_never_reports_a_line_item_witness :
  @nil LineItem = [] /\ 0%nat = 0%nat.
Proof.
  apply (pipeline_never_reports_a_line_item load_vendor_patterns
           (Extracted "" header_only_ocr) "generic" "generic" ""
           "Dynamic Table Detection + Line Item Extraction"
           (mkTableRegion 10 50 220 12 (8 # 10)) 0 []).
  reflexivity.
Defined.

(** ** The line scan of [basic_parsing] *)

Lemma search_never_matches (ignorecase : bool) (p : Re.pattern) :
  never_matches ignorecase p ->
  forall prev s, search_from ignorecase p prev s = false.
Proof.
  intros H prev s. revert prev.
  induction s as [| c s IH]; intros prev; cbn [search_from]; rewrite H;
    [reflexivity | apply IH].
Qed.

Lemma line_pattern_compiled :
  Re.compile "\\d+.*\\$\\d+"
  = Ok [Re.One (Re.Lit "\"); Re.Repeat 1 None (Re.Lit "d");
        Re.Repeat 0 None Re.AnyChar; Re.One (Re.Lit "\"); Re.At Re.AtEnd;
        Re.One (Re.Lit "\"); Re.Repeat 1 None (Re.Lit "d")].
Proof. reflexivity. Qed.

Lemma line_pattern_never_found (line : string) :
  re_search "\\d+.*\\$\\d+" line false = Ok false.
Proof.
  unfold re_search. rewrite line_pattern_compiled. cbn [bind].
  rewrite search_never_matches; [reflexivity |].
  do 4 apply never_matches_cons. apply end_then_backslash_never_matches.
Qed.

Lemma potential_lines_empty (lines : list string) : potential_lines lines = Ok [].
Proof.
  induction lines as [| line lines IH]; cbn [potential_lines].
  - reflexivity.
  - rewrite line_pattern_never_found, IH. reflexivity.
Qed.

(** X16. The potential line items of [basic_parsing] are empty for every
    text: the line pattern, as written, asks for a backslash after the
    end of the line, so no line is ever taken. *)
Theorem potential_line_items_always_empty (text : string) :
  potential_line_items text = Ok [].
Proof.
  unfold potential_line_items. now rewrite potential_lines_empty.
Qed.

Lemma scan_needs_backslash (p : Re.pattern) (s : list ascii) :
  Forall (fun c => c <> "\"%char) s ->
  forall skip prev, Re.scan false (Re.One (Re.Lit "\") :: p) skip prev s = [].
Proof.
  induction 1 as [| c s Hc _ IH]; intros skip prev; cbn [Re.scan Re.match_here].
  - destruct skip; reflexivity.
  - assert (E : Re.atom_matches false (Re.Lit "\") c = false).
    { cbn [Re.atom_matches]. apply Ascii.eqb_neq. congruence. }
    rewrite E. destruct skip; apply IH.
Qed.

Lemma invoice_number_pattern_compiled :
  Re.compile "\\b[A-Z0-9]{3,}\\b"
  = Ok [Re.One (Re.Lit "\"); Re.One (Re.Lit "b");
        Re.Repeat 3 None
          (Re.Class false [Re.CRange "A" "Z"; Re.CRange "0" "9"]);
        Re.One (Re.Lit "\"); Re.One (Re.Lit "b")].
Proof. reflexivity. Qed.

(** X17. On a text without a backslash [basic_parsing] finds no candidate
    invoice number: the pattern, as written, starts with a literal
    backslash. *)
Theorem possible_invoice_numbers_need_a_backslash (text : string) :
  backslash_free text -> possible_invoice_numbers text = Ok [].
Proof.
  intros H. unfold possible_invoice_numbers.
  rewrite (findall_compiled _ _ _ _ invoice_number_pattern_compiled).
  cbn [bind]. now rewrite scan_needs_backslash.
Qed.

Lemma possible_invoice_numbers_need_a_backslash_witness :
  possible_invoice_numbers "Invoice INV-2024 ABC123 total $42.00" = Ok [].
Proof.
  apply possible_invoice_numbers_need_a_backslash.
  unfold backslash_free. simpl. repeat constructor; discriminate.
Defined.

(** ** The header row of the table *)

Lemma starts_with_app (p s t : string) :
  Str.starts_with p s = true -> Str.starts_with p (s ++ t) = true.
Proof.
  revert s. induction p as [| a p IH]; intros s H; [reflexivity |].
  destruct s as [| b s]; simpl in *; [discriminate |].
  apply andb_true_iff in H. destruct H as [H1 H2].
  now rewrite H1, (IH _ H2).
Qed.

Lemma contains_app_r (sub s t : string) :
  Str.contains sub t = true -> Str.contains sub (s ++ t) = true.
Proof.
  intros H. induction s as [| c s IH]; [exact H |].
  simpl. rewrite IH. apply orb_true_r.
Qed.

Lemma contains_app_l (sub s t : string) :
  Str.contains sub s = true -> Str.contains sub (s ++ t) = true.
Proof.
  induction s as [| c s IH]; intros H.
  - simpl in H. rewrite orb_false_r in H.
    destruct sub; [| discriminate]. destruct t; reflexivity.
  - simpl in H. apply orb_true_iff in H. destruct H as [H | H].
    + pose proof (starts_with_app _ (String c s) t H) as H'.
      change (String c s ++ t)%string with (String c (s ++ t)) in *.
      cbn [Str.contains]. rewrite H'. reflexivity.
    + simpl. rewrite (IH H). apply orb_true_r.
Qed.

Lemma lower_app (s t : string) : Str.lower (s ++ t) = (Str.lower s ++ Str.lower t)%string.
Proof. induction s as [| c s IH]; simpl; [reflexivity | now rewrite IH]. Qed.

Lemma keyword_in_joined (k t : string) (texts : list string) :
  In t texts ->
  Str.contains (Str.lower k) (Str.lower t) = true ->
  Str.contains (Str.lower k) (Str.lower (Str.join " " texts)) = true.
Proof.
  intros Hin Hc. induction texts as [| a texts IH]; [destruct Hin |].
  destruct texts as [| b texts].
  - destruct Hin as [-> | []]. exact Hc.
  - change (Str.join " " (a :: b :: texts))
      with (a ++ " " ++ Str.join " " (b :: texts))%string.
    rewrite lower_app. destruct Hin as [-> | Hin].
    + now apply contains_app_l.
    + apply contains_app_r. rewrite lower_app. apply contains_app_r. now apply IH.
Qed.

(** X12. When every start keyword of a vendor is also a header keyword, as
    for the acme vendor, a row holding a word that contains a start
    keyword is never classified: whatever else it holds, it is dropped
    as a header row. *)
Theorem start_anchor_row_is_dropped
        (patterns : VendorPattern) (row_words : list word) (d : word) :
  (forall k, In k (table_start_keywords patterns) -> In k header_keywords) ->
  In d row_words ->
  keyword_hit (table_start_keywords patterns) (w_text d) = true ->
  parse_row_to_line_item row_words patterns = Ok None.
Proof.
  intros Hsub Hd Hhit. unfold parse_row_to_line_item.
  destruct (List.length row_words <? 2)%nat; [reflexivity |].
  unfold keyword_hit in Hhit. apply andb_true_iff in Hhit. destruct Hhit as [_ Hany].
  unfold Str.any_keyword_in in Hany. apply existsb_exists in Hany.
  destruct Hany as (k & Hk & Hc).
  rewrite (any_keyword_in_intro header_keywords k); [reflexivity | now apply Hsub |].
  unfold row_text. apply (keyword_in_joined k (w_text d)); [| exact Hc].
  now apply in_map.
Qed.

Lemma start_anchor_row_is_dropped_witness :
  parse_row_to_line_item
    [mkWord "QTY." 200 50 30 12 95; mkWord "$10.00" 250 50 40 12 95] acme
  = Ok None.
Proof.
  apply (start_anchor_row_is_dropped acme _ (mkWord "QTY." 200 50 30 12 95)).
  - simpl. intuition.
  - simpl. now left.
  - reflexivity.
Defined.

(** The generic vendor has the start keyword "Quantity", which is not a
    header keyword: a row that starts the table with it reaches the
    patterns. *)
Example generic_start_row_reaches_the_patterns :
  keyword_hit (table_start_keywords generic) "Quantity" = true /\
  parse_row_to_line_item
    [mkWord "Quantity" 10 50 60 12 95; mkWord "Unit" 100 50 30 12 95] generic
  = Raise (ReError "nothing to repeat" 3).
Proof. split; reflexivity. Qed.

(** ** Table region detector: the horizontal bounds are tight *)

(** X7. The left edge of a returned region is the left edge of a non-blank
    word of the band, and its right edge is the right edge of one: with
    the enclosure of the band words, the region is the narrowest span
    that holds them. *)
Theorem region_is_tight
        (vendor_patterns : list (string * VendorPattern)) (vendor_type : string)
        (patterns : VendorPattern) (ocr : ocr_data) (r : TableRegion) :
  lookup_vendor vendor_patterns vendor_type = Ok patterns ->
  detect_table_region vendor_patterns ocr vendor_type = Ok (Some r) ->
  (exists i,
      in_band ocr (region_y r) (region_y r + region_height r) i /\
      nth_error (left ocr) i = Some (region_x r)) /\
  (exists j l w,
      in_band ocr (region_y r) (region_y r + region_height r) j /\
      nth_error (left ocr) j = Some l /\ nth_error (width ocr) j = Some w /\
      l + w = region_x r + region_width r).
Proof.
  intros Hl Hd.
  destruct (detect_region_band _ _ _ _ _ Hl Hd) as (ls & rs & _ & Hls & Hrs & Hmin & Hmax).
  destruct (py_min_spec _ _ Hmin) as [Hin_min _].
  destruct (py_max_spec _ _ Hmax) as [Hin_max _].
  split.
  - destruct (band_values_sound _ _ _ _ _ _ _ Hls _ Hin_min)
      as (k & w & t & Hw & Ht & Hs & Hb & Hv).
    simpl in Ht, Hv. unfold left_edge in Hv. apply get_ok in Hv.
    exists k. split; [exists w, t; auto | exact Hv].
  - destruct (band_values_sound _ _ _ _ _ _ _ Hrs _ Hin_max)
      as (k & w & t & Hw & Ht & Hs & Hb & Hv).
    simpl in Ht, Hv. unfold right_edge in Hv.
    inv_bind Hv as l El. inv_bind Hv as wd Ewd. inversion Hv as [E].
    apply get_ok in El, Ewd.
    exists k, l, wd. split; [exists w, t; auto |]. auto.
Qed.

Lemma region_is_tight_witness :
  (exists i,
      in_band reference_ocr (region_y reference_region)
              (region_y reference_region + region_height reference_region) i /\
      nth_error (left reference_ocr) i = Some (region_x reference_region)) /\
  (exists j l w,
      in_band reference_ocr (region_y reference_region)
              (region_y reference_region + region_height reference_region) j /\
      nth_error (left reference_ocr) j = Some l /\
      nth_error (width reference_ocr) j = Some w /\
      l + w = region_x reference_region + region_width reference_region).
Proof.
  apply (region_is_tight load_vendor_patterns "generic" generic reference_ocr
                         reference_region); reflexivity.
Defined.
